(** * Monk Journey: performance profile, scene optimizer and gameplay settings

    A shallow embedding of

    - [src/js/config/performance-profile.js] (the tunable tables and
      [getPerformanceProfile]),
    - [src/js/game/SceneOptimizer.js] ([optimizeScene], [optimizeMesh] and
      [optimizeLight]),
    - [GameplayTab] (the minimal-mode checkbox, [saveSettings],
      [resetToDefaults] and the initialisation of the difficulty select),
    - [src/js/hud-manager/VirtualJoystickUI.js] (the joystick state and its
      touch and mouse listeners),

    together with a model of the chunk generation scheduler that the
    specification describes. *)

From Stdlib Require Import QArith Qround.
From stdpp Require Import base strings list gmap pretty.

Local Open Scope string_scope.

(** ** JavaScript values *)

(** A JavaScript number: a finite value (kept as the rational its literal
    denotes), the two infinities, or NaN. *)
Inductive JSNumber : Type :=
  | Finite (q : Q)
  | Infinity
  | NegInfinity
  | NaN.

(** [a <= b] on numbers; every comparison with NaN is false. *)
Definition num_leb (a b : JSNumber) : bool :=
  match a, b with
  | NaN, _ | _, NaN => false
  | Finite p, Finite q => Qle_bool p q
  | NegInfinity, _ => true
  | _, Infinity => true
  | _, _ => false
  end.

(** [a < b] on numbers. *)
Definition num_ltb (a b : JSNumber) : bool :=
  match a, b with
  | NaN, _ | _, NaN => false
  | Finite p, Finite q => negb (Qle_bool q p)
  | NegInfinity, NegInfinity => false
  | NegInfinity, _ => true
  | Infinity, _ => false
  | _, Infinity => true
  | _, _ => false
  end.

(** [Number.isInteger]. *)
Definition isInteger (a : JSNumber) : bool :=
  match a with
  | Finite q => Pos.eqb (Qden (Qred q)) 1
  | _ => false
  end.

Definition num (z : Z) : JSNumber := Finite (inject_Z z).

Inductive JSValue : Type :=
  | JSUndefined
  | JSNull
  | JSBoolean (b : bool)
  | JSNum (n : JSNumber)
  | JSBigInt (z : Z)
  | JSString (s : string)
  | JSSymbol (id : nat)
  | JSObject (ref : nat).

(** The truthiness test that [?:], [if], [!!] and [||] apply to a value. *)
Definition ToBoolean (v : JSValue) : bool :=
  match v with
  | JSUndefined | JSNull => false
  | JSBoolean b => b
  | JSNum (Finite q) => negb (Qeq_bool q 0)
  | JSNum NaN => false
  | JSNum _ => true
  | JSBigInt z => negb (Z.eqb z 0)
  | JSString s => negb (String.eqb s "")
  | JSSymbol _ | JSObject _ => true
  end.

(** ** performance-profile.js *)

Module PerformanceProfile.

(** [level] is one of the two string literals ['minimal'] and ['normal']. *)
Inductive Level : Type := Normal | Minimal.

Definition level_name (l : Level) : string :=
  match l with Normal => "normal" | Minimal => "minimal" end.

(** A table with one entry per level, [{ normal: ..., minimal: ... }]. *)
Record Tiered (A : Type) : Type := mkTiered { normal : A; minimal : A }.
Arguments mkTiered {A} _ _.
Arguments normal {A} _.
Arguments minimal {A} _.

(** [table[level]]. *)
Definition at_level {A : Type} (table : Tiered A) (level : Level) : A :=
  match level with Normal => normal table | Minimal => minimal table end.

Record TerrainLod : Type := mkTerrainLod {
  nearResolution : JSNumber;
  midResolution : JSNumber;
  farResolution : JSNumber;
  bufferResolution : JSNumber
}.

Definition TERRAIN_LOD : Tiered TerrainLod :=
  {| normal := {| nearResolution := num 24; midResolution := num 16;
                  farResolution := num 12; bufferResolution := num 8 |};
     minimal := {| nearResolution := num 12; midResolution := num 8;
                   farResolution := num 6; bufferResolution := num 4 |} |}.

Definition VIEW_DISTANCE : Tiered JSNumber :=
  {| normal := num 3; minimal := num 2 |}.

Definition BUFFER_DISTANCE : Tiered JSNumber :=
  {| normal := num 5; minimal := num 3 |}.

Definition CHUNKS_PER_FRAME : Tiered JSNumber :=
  {| normal := num 2; minimal := num 1 |}.

Definition ENVIRONMENT_DENSITY_MULTIPLIER : Tiered JSNumber :=
  {| normal := Finite 1; minimal := Finite (25 # 100) |}.

Definition STRUCTURE_DENSITY_MULTIPLIER : Tiered JSNumber :=
  {| normal := Finite 1; minimal := Finite (2 # 10) |}.

Definition STRUCTURE_CHUNKS_PER_FRAME : Tiered JSNumber :=
  {| normal := num 2; minimal := num 1 |}.

Definition ENV_CHUNKS_PER_FRAME : Tiered JSNumber :=
  {| normal := num 2; minimal := num 1 |}.

Definition SHADOW_CASTER_DISTANCE : Tiered JSNumber :=
  {| normal := Infinity; minimal := num 0 |}.

(** The module's exported bindings, as the state a call could observe or
    change. *)
Record Tables : Type := mkTables {
  tbl_TERRAIN_LOD : Tiered TerrainLod;
  tbl_VIEW_DISTANCE : Tiered JSNumber;
  tbl_BUFFER_DISTANCE : Tiered JSNumber;
  tbl_CHUNKS_PER_FRAME : Tiered JSNumber;
  tbl_ENVIRONMENT_DENSITY_MULTIPLIER : Tiered JSNumber;
  tbl_STRUCTURE_DENSITY_MULTIPLIER : Tiered JSNumber;
  tbl_STRUCTURE_CHUNKS_PER_FRAME : Tiered JSNumber;
  tbl_ENV_CHUNKS_PER_FRAME : Tiered JSNumber;
  tbl_SHADOW_CASTER_DISTANCE : Tiered JSNumber
}.

(** The tables as the module initialises them. *)
Definition module_tables : Tables :=
  {| tbl_TERRAIN_LOD := TERRAIN_LOD;
     tbl_VIEW_DISTANCE := VIEW_DISTANCE;
     tbl_BUFFER_DISTANCE := BUFFER_DISTANCE;
     tbl_CHUNKS_PER_FRAME := CHUNKS_PER_FRAME;
     tbl_ENVIRONMENT_DENSITY_MULTIPLIER := ENVIRONMENT_DENSITY_MULTIPLIER;
     tbl_STRUCTURE_DENSITY_MULTIPLIER := STRUCTURE_DENSITY_MULTIPLIER;
     tbl_STRUCTURE_CHUNKS_PER_FRAME := STRUCTURE_CHUNKS_PER_FRAME;
     tbl_ENV_CHUNKS_PER_FRAME := ENV_CHUNKS_PER_FRAME;
     tbl_SHADOW_CASTER_DISTANCE := SHADOW_CASTER_DISTANCE |}.

(** The object literal that [getPerformanceProfile] returns. *)
Record Profile : Type := mkProfile {
  terrainLod : TerrainLod;
  viewDistance : JSNumber;
  bufferDistance : JSNumber;
  chunksPerFrame : JSNumber;
  environmentDensity : JSNumber;
  structureDensity : JSNumber;
  structureChunksPerFrame : JSNumber;
  envChunksPerFrame : JSNumber;
  shadowCasterDistance : JSNumber
}.

(** [const level = isMinimal ? 'minimal' : 'normal'] *)
Definition level_of (isMinimal : JSValue) : Level :=
  if ToBoolean isMinimal then Minimal else Normal.

(** The body of [getPerformanceProfile], run against a state of the tables:
    it returns the profile and the state it leaves behind. *)
Definition getPerformanceProfile_run (isMinimal : JSValue) (t : Tables)
  : Profile * Tables :=
  let level := level_of isMinimal in
  ({| terrainLod := at_level (tbl_TERRAIN_LOD t) level;
      viewDistance := at_level (tbl_VIEW_DISTANCE t) level;
      bufferDistance := at_level (tbl_BUFFER_DISTANCE t) level;
      chunksPerFrame := at_level (tbl_CHUNKS_PER_FRAME t) level;
      environmentDensity := at_level (tbl_ENVIRONMENT_DENSITY_MULTIPLIER t) level;
      structureDensity := at_level (tbl_STRUCTURE_DENSITY_MULTIPLIER t) level;
      structureChunksPerFrame := at_level (tbl_STRUCTURE_CHUNKS_PER_FRAME t) level;
      envChunksPerFrame := at_level (tbl_ENV_CHUNKS_PER_FRAME t) level;
      shadowCasterDistance := at_level (tbl_SHADOW_CASTER_DISTANCE t) level |},
   t).

(** [getPerformanceProfile(isMinimal)] on the module's own tables. *)
Definition getPerformanceProfile (isMinimal : JSValue) : Profile :=
  fst (getPerformanceProfile_run isMinimal module_tables).

(** The profile assembled from the ['normal'] entry of every table. *)
Definition normal_profile : Profile :=
  {| terrainLod := normal TERRAIN_LOD;
     viewDistance := normal VIEW_DISTANCE;
     bufferDistance := normal BUFFER_DISTANCE;
     chunksPerFrame := normal CHUNKS_PER_FRAME;
     environmentDensity := normal ENVIRONMENT_DENSITY_MULTIPLIER;
     structureDensity := normal STRUCTURE_DENSITY_MULTIPLIER;
     structureChunksPerFrame := normal STRUCTURE_CHUNKS_PER_FRAME;
     envChunksPerFrame := normal ENV_CHUNKS_PER_FRAME;
     shadowCasterDistance := normal SHADOW_CASTER_DISTANCE |}.

(** The profile assembled from the ['minimal'] entry of every table. *)
Definition minimal_profile : Profile :=
  {| terrainLod := minimal TERRAIN_LOD;
     viewDistance := minimal VIEW_DISTANCE;
     bufferDistance := minimal BUFFER_DISTANCE;
     chunksPerFrame := minimal CHUNKS_PER_FRAME;
     environmentDensity := minimal ENVIRONMENT_DENSITY_MULTIPLIER;
     structureDensity := minimal STRUCTURE_DENSITY_MULTIPLIER;
     structureChunksPerFrame := minimal STRUCTURE_CHUNKS_PER_FRAME;
     envChunksPerFrame := minimal ENV_CHUNKS_PER_FRAME;
     shadowCasterDistance := minimal SHADOW_CASTER_DISTANCE |}.

(** Every number of a profile, the four resolutions first. *)
Definition tunables (p : Profile) : list JSNumber :=
  [nearResolution (terrainLod p); midResolution (terrainLod p);
   farResolution (terrainLod p); bufferResolution (terrainLod p);
   viewDistance p; bufferDistance p; chunksPerFrame p;
   environmentDensity p; structureDensity p; structureChunksPerFrame p;
   envChunksPerFrame p; shadowCasterDistance p].

End PerformanceProfile.

(** ** SceneOptimizer.js *)

Module SceneOptimizer.

(** [THREE.NearestFilter], a constant of the rendering library. *)
Definition NearestFilter : JSNumber := num 1003.

Record Texture : Type := mkTexture {
  anisotropy : JSNumber;
  minFilter : JSNumber;
  magFilter : JSNumber;
  generateMipmaps : bool
}.

Record Material : Type := mkMaterial {
  precision : option string;
  fog : bool;
  map : option Texture;
  flatShading : bool
}.

(** [object.material]: absent, one material, or an array of materials. *)
Inductive MaterialSlot : Type :=
  | NoMaterial
  | OneMaterial (m : Material)
  | MaterialArray (ms : list Material).

Record Camera : Type := mkCamera {
  isOrthographicCamera : bool;
  left : JSNumber;
  right : JSNumber;
  top : JSNumber;
  bottom : JSNumber;
  (** how many times [updateProjectionMatrix] ran on this camera *)
  projectionMatrixUpdates : nat
}.

Record LightShadow : Type := mkLightShadow {
  mapSize_width : JSNumber;
  mapSize_height : JSNumber;
  camera : option Camera
}.

(** The own properties of a scene-graph object that the optimizer reads or
    writes. *)
Record Props : Type := mkProps {
  isMesh : bool;
  isLight : bool;
  frustumCulled : bool;
  castShadow : bool;
  receiveShadow : bool;
  matrixAutoUpdate : bool;
  material : MaterialSlot;
  shadow : option LightShadow
}.

(** A scene-graph object with its children.  Each object carries its own
    copy of its materials: what the optimizer writes to a material does not
    depend on the mesh it is reached from, so a material shared by several
    meshes ends up the same whichever of them is visited. *)
#[warnings="-register-all"]
Inductive Object3D : Type :=
  | Node (props : Props) (children : list Object3D).

(** The scene: the root object of the graph, and its [fog] property. *)
Record Scene : Type := mkScene {
  scene_fog : JSValue;
  scene_root : Object3D
}.

(** [Object3D.traverse(callback)]: the callback runs on the object, then on
    every descendant, children in order. *)
Fixpoint traverse (callback : Props -> Props) (o : Object3D) : Object3D :=
  match o with
  | Node p cs => Node (callback p) (List.map (traverse callback) cs)
  end.

(** The objects of a graph in the order [traverse] visits them. *)
Fixpoint objects (o : Object3D) : list Props :=
  match o with
  | Node p cs => p :: List.concat (List.map objects cs)
  end.

Definition set_frustumCulled (v : bool) (o : Props) : Props :=
  mkProps (isMesh o) (isLight o) v (castShadow o) (receiveShadow o)
          (matrixAutoUpdate o) (material o) (shadow o).

Definition set_castShadow (v : bool) (o : Props) : Props :=
  mkProps (isMesh o) (isLight o) (frustumCulled o) v (receiveShadow o)
          (matrixAutoUpdate o) (material o) (shadow o).

Definition set_receiveShadow (v : bool) (o : Props) : Props :=
  mkProps (isMesh o) (isLight o) (frustumCulled o) (castShadow o) v
          (matrixAutoUpdate o) (material o) (shadow o).

Definition set_matrixAutoUpdate (v : bool) (o : Props) : Props :=
  mkProps (isMesh o) (isLight o) (frustumCulled o) (castShadow o)
          (receiveShadow o) v (material o) (shadow o).

Definition set_material (v : MaterialSlot) (o : Props) : Props :=
  mkProps (isMesh o) (isLight o) (frustumCulled o) (castShadow o)
          (receiveShadow o) (matrixAutoUpdate o) v (shadow o).

Definition set_shadow (v : option LightShadow) (o : Props) : Props :=
  mkProps (isMesh o) (isLight o) (frustumCulled o) (castShadow o)
          (receiveShadow o) (matrixAutoUpdate o) (material o) v.

(** The texture part of the [materials.forEach] body. *)
Definition optimizeTexture (isMinimal : bool) (t : Texture) : Texture :=
  if isMinimal
  then {| anisotropy := num 1; minFilter := NearestFilter;
          magFilter := NearestFilter; generateMipmaps := false |}
  else {| anisotropy := num 1; minFilter := minFilter t;
          magFilter := magFilter t; generateMipmaps := generateMipmaps t |}.

(** The [materials.forEach] body of [optimizeScene]. *)
Definition optimizeMaterial (isMinimal : bool) (sceneFog : JSValue)
    (m : Material) : Material :=
  {| precision := Some (if isMinimal then "lowp" else "mediump");
     fog := ToBoolean sceneFog;
     map := option_map (optimizeTexture isMinimal) (map m);
     flatShading := if isMinimal then true else flatShading m |}.

(** The [if (object.isMesh)] block. *)
Definition optimizeMeshPart (isMinimal : bool) (sceneFog : JSValue)
    (object : Props) : Props :=
  if isMesh object then
    let o1 := set_frustumCulled true object in
    let o2 :=
      if isMinimal then set_receiveShadow false (set_castShadow false o1)
      else if castShadow o1
           then set_matrixAutoUpdate true (set_castShadow true o1)
           else o1 in
    match material o2 with
    | NoMaterial => o2
    | OneMaterial m =>
        set_material (OneMaterial (optimizeMaterial isMinimal sceneFog m)) o2
    | MaterialArray ms =>
        set_material
          (MaterialArray (List.map (optimizeMaterial isMinimal sceneFog) ms)) o2
    end
  else object.

(** The shadow-camera part of the light block. *)
Definition optimizeShadowCamera (c : Camera) : Camera :=
  if isOrthographicCamera c then
    let size := num 20 in
    {| isOrthographicCamera := true;
       left := num (-20); right := size; top := size; bottom := num (-20);
       projectionMatrixUpdates := S (projectionMatrixUpdates c) |}
  else c.

(** The [if (object.isLight)] block. *)
Definition optimizeLightPart (isMinimal : bool) (object : Props) : Props :=
  if isLight object then
    match shadow object with
    | None => object
    | Some sh =>
        if isMinimal then set_castShadow false object
        else set_shadow
               (Some {| mapSize_width := num 1024;
                        mapSize_height := num 1024;
                        camera := option_map optimizeShadowCamera (camera sh) |})
               object
    end
  else object.

(** The callback [optimizeScene] hands to [scene.traverse]. *)
Definition optimizeObject (isMinimal : bool) (sceneFog : JSValue)
    (object : Props) : Props :=
  optimizeLightPart isMinimal (optimizeMeshPart isMinimal sceneFog object).

(** [static optimizeScene(scene, qualityLevel = 'ultra')]: the scene after
    the call, and the line it prints with [console.debug].  [None] stands
    for an omitted quality level. *)
Definition optimizeScene (scene : Scene) (qualityLevel : option string)
  : Scene * string :=
  let qualityLevel := default "ultra" qualityLevel in
  let isMinimal := String.eqb qualityLevel "minimal" in
  ({| scene_fog := scene_fog scene;
      scene_root :=
        traverse (optimizeObject isMinimal (scene_fog scene)) (scene_root scene) |},
   "Scene optimizations applied for " +:+ qualityLevel +:+ " quality").

(** The objects of a scene, the scene object first. *)
Definition scene_objects (scene : Scene) : list Props :=
  objects (scene_root scene).

(** The [materials.forEach] body of [optimizeMesh]. *)
Definition optimizeMeshMaterial (hasFog : bool) (m : Material) : Material :=
  {| precision := Some "mediump";
     fog := hasFog;
     map := option_map
              (fun t => {| anisotropy := num 1; minFilter := minFilter t;
                           magFilter := magFilter t;
                           generateMipmaps := generateMipmaps t |})
              (map m);
     flatShading := flatShading m |}.

(** [static optimizeMesh(mesh, hasFog = true)]; [None] stands for an
    omitted [hasFog]. *)
Definition optimizeMesh (mesh : Props) (hasFog : option bool) : Props :=
  let hasFog := default true hasFog in
  let m1 := set_frustumCulled true mesh in
  match material m1 with
  | NoMaterial => m1
  | OneMaterial m =>
      set_material (OneMaterial (optimizeMeshMaterial hasFog m)) m1
  | MaterialArray ms =>
      set_material (MaterialArray (List.map (optimizeMeshMaterial hasFog) ms)) m1
  end.

(** [static optimizeLight(light)] *)
Definition optimizeLight (light : Props) : Props :=
  match shadow light with
  | None => light
  | Some sh =>
      set_shadow
        (Some {| mapSize_width := num 1024;
                 mapSize_height := num 1024;
                 camera := option_map optimizeShadowCamera (camera sh) |})
        light
  end.

(** The materials an object holds, [Array.isArray(m) ? m : [m]]. *)
Definition materials_of (slot : MaterialSlot) : list Material :=
  match slot with
  | NoMaterial => []
  | OneMaterial m => [m]
  | MaterialArray ms => ms
  end.

(** One more [updateProjectionMatrix()] on the orthographic shadow camera
    of a light, and nothing else. *)
Definition reproject (o : Props) : Props :=
  if isLight o then
    match shadow o with
    | Some sh =>
        set_shadow
          (Some {| mapSize_width := mapSize_width sh;
                   mapSize_height := mapSize_height sh;
                   camera :=
                     option_map
                       (fun c =>
                          if isOrthographicCamera c
                          then mkCamera (isOrthographicCamera c) (left c)
                                 (right c) (top c) (bottom c)
                                 (S (projectionMatrixUpdates c))
                          else c)
                       (camera sh) |})
          o
    | None => o
    end
  else o.

End SceneOptimizer.

(** ** GameplayTab: the performance settings *)

Module GameplayTab.

(** The entries of [STORAGE_KEYS] that the tab uses.  The table lives in
    [config/storage-keys.js]; its strings are a parameter of this model. *)
Record StorageKeys : Type := mkStorageKeys {
  DIFFICULTY : string;
  CUSTOM_SKILLS : string;
  CAMERA_ZOOM : string;
  MINIMAL_MODE : string;
  QUALITY_LEVEL : string;
  TARGET_FPS : string;
  SHOW_PERFORMANCE_INFO : string;
  DEBUG_MODE : string;
  LOG_ENABLED : string
}.

(** The parts of [this.game] the tab touches. *)
Record Game : Type := mkGame {
  difficulty : option string;
  has_enemyManager : bool;
  has_performanceManager : bool;
  has_hudManager : bool;
  has_showNotification : bool
}.

(** A call the tab makes on a collaborator. *)
Inductive Call : Type :=
  | setDifficulty (d : string)
  | applyQualitySettings (quality : string)
  | showNotification (message : string) (duration : Z).

(** The DOM elements the tab found ([None]: [getElementById] gave null),
    each with the property the tab reads. *)
Record Tab : Type := mkTab {
  difficultySelect : option string;          (* .value *)
  customSkillsCheckbox : option bool;        (* .checked *)
  cameraZoomSlider : option string;          (* .value *)
  minimalModeCheckbox : option bool;         (* .checked *)
  fpsSlider : option string;                 (* .value *)
  showPerformanceInfoCheckbox : option bool; (* .checked *)
  debugModeCheckbox : option bool;           (* .checked *)
  logEnabledCheckbox : option bool           (* .checked *)
}.

(** What the tab's code can change: [localStorage], the game object, and
    the calls made so far (latest last). *)
Record World : Type := mkWorld {
  localStorage : gmap string string;
  game : option Game;
  calls : list Call
}.

(** [b.toString()] and the string [setItem] stores for a boolean. *)
Definition bool_toString (b : bool) : string :=
  if b then "true" else "false".

(** [localStorage.setItem(key, value)] *)
Definition setItem (key value : string) (w : World) : World :=
  {| localStorage := <[key := value]> (localStorage w);
     game := game w;
     calls := calls w |}.

(** [localStorage.getItem(key)]; [None] is null. *)
Definition getItem (key : string) (w : World) : option string :=
  localStorage w !! key.

Definition call (c : Call) (w : World) : World :=
  {| localStorage := localStorage w; game := game w; calls := calls w ++ [c] |}.

Definition set_game_difficulty (d : string) (w : World) : World :=
  {| localStorage := localStorage w;
     game := option_map
               (fun g => mkGame (Some d) (has_enemyManager g)
                                (has_performanceManager g) (has_hudManager g)
                                (has_showNotification g))
               (game w);
     calls := calls w |}.

(** Run [body] on the element's property when the element exists. *)
Definition when_present {A : Type} (element : option A)
    (body : A -> World -> World) (w : World) : World :=
  match element with
  | Some a => body a w
  | None => w
  end.

(** One write applied to a storage map. *)
Definition put (m : gmap string string) (kv : string * string)
  : gmap string string :=
  <[kv.1 := kv.2]> m.

(** Whether an element exists. *)
Definition is_Some_b {A : Type} (element : option A) : bool :=
  match element with Some _ => true | None => false end.

(** What an initialiser makes of a stored checkbox state,
    [localStorage.getItem(key) === 'true']. *)
Definition stored_true (key : string) (w : World) : bool :=
  match getItem key w with
  | Some s => String.eqb s "true"
  | None => false
  end.

Section WithKeys.

Variable K : StorageKeys.

(** The quality level the tab derives from the checkbox,
    [isMinimal ? 'minimal' : 'ultra']. *)
Definition quality_of (isMinimal : bool) : string :=
  if isMinimal then "minimal" else "ultra".

(** The state [initializePerformanceSettings] gives the minimal-mode
    checkbox: [localStorage.getItem(MINIMAL_MODE) === 'true']. *)
Definition initial_minimal_checked (w : World) : bool :=
  match getItem (MINIMAL_MODE K) w with
  | Some s => String.eqb s "true"
  | None => false
  end.

(** The ['change'] listener that [initializePerformanceSettings] registers
    on the minimal-mode checkbox; [isMinimal] is the checkbox's [checked]
    when the event fires. *)
Definition onMinimalModeChange (isMinimal : bool) (w : World) : World :=
  let w1 := setItem (MINIMAL_MODE K) (bool_toString isMinimal) w in
  let w2 := setItem (QUALITY_LEVEL K) (quality_of isMinimal) w1 in
  match game w2 with
  | Some g =>
      if has_performanceManager g then
        let w3 := call (applyQualitySettings (quality_of isMinimal)) w2 in
        if has_hudManager g && has_showNotification g then
          call (showNotification
                  (if isMinimal
                   then "Low-end tablet mode enabled — restart game for full effect"
                   else "Low-end tablet mode disabled — restart game for full effect")
                  3000) w3
        else w3
      else w2
  | None => w2
  end.

(** [saveSettings()] *)
Definition saveSettings (tab : Tab) (w : World) : World :=
  let w := when_present (difficultySelect tab) (fun value w =>
             let difficulty := if String.eqb value "" then "basic" else value in
             let w := setItem (DIFFICULTY K) difficulty w in
             match game w with
             | Some g =>
                 let w := set_game_difficulty difficulty w in
                 if has_enemyManager g then call (setDifficulty difficulty) w
                 else w
             | None => w
             end) w in
  let w := when_present (customSkillsCheckbox tab) (fun checked =>
             setItem (CUSTOM_SKILLS K) (bool_toString checked)) w in
  let w := when_present (cameraZoomSlider tab) (fun value =>
             setItem (CAMERA_ZOOM K) value) w in
  let w := when_present (minimalModeCheckbox tab) (fun isMinimal w =>
             let w := setItem (MINIMAL_MODE K) (bool_toString isMinimal) w in
             setItem (QUALITY_LEVEL K) (quality_of isMinimal) w) w in
  let w := when_present (fpsSlider tab) (fun value =>
             setItem (TARGET_FPS K) value) w in
  let w := when_present (showPerformanceInfoCheckbox tab) (fun checked =>
             setItem (SHOW_PERFORMANCE_INFO K) (bool_toString checked)) w in
  let w := when_present (debugModeCheckbox tab) (fun checked =>
             setItem (DEBUG_MODE K) (bool_toString checked)) w in
  when_present (logEnabledCheckbox tab) (fun checked =>
             setItem (LOG_ENABLED K) (bool_toString checked)) w.

(** The keys [saveSettings] writes after the quality level. *)
Definition keys_after_quality : list string :=
  [TARGET_FPS K; SHOW_PERFORMANCE_INFO K; DEBUG_MODE K; LOG_ENABLED K].

(** Every key of the table, in the order [saveSettings] writes them. *)
Definition all_keys : list string :=
  [DIFFICULTY K; CUSTOM_SKILLS K; CAMERA_ZOOM K; MINIMAL_MODE K;
   QUALITY_LEVEL K; TARGET_FPS K; SHOW_PERFORMANCE_INFO K; DEBUG_MODE K;
   LOG_ENABLED K].

(** The [setItem] calls of [saveSettings], in program order. *)
Definition saveSettings_writes (tab : Tab) : list (string * string) :=
  from_option (fun value =>
     [(DIFFICULTY K, if String.eqb value "" then "basic" else value)])
     [] (difficultySelect tab)
  ++ from_option (fun checked => [(CUSTOM_SKILLS K, bool_toString checked)])
       [] (customSkillsCheckbox tab)
  ++ from_option (fun value => [(CAMERA_ZOOM K, value)])
       [] (cameraZoomSlider tab)
  ++ from_option (fun isMinimal =>
        [(MINIMAL_MODE K, bool_toString isMinimal);
         (QUALITY_LEVEL K, quality_of isMinimal)])
       [] (minimalModeCheckbox tab)
  ++ from_option (fun value => [(TARGET_FPS K, value)]) [] (fpsSlider tab)
  ++ from_option (fun checked =>
        [(SHOW_PERFORMANCE_INFO K, bool_toString checked)])
       [] (showPerformanceInfoCheckbox tab)
  ++ from_option (fun checked => [(DEBUG_MODE K, bool_toString checked)])
       [] (debugModeCheckbox tab)
  ++ from_option (fun checked => [(LOG_ENABLED K, bool_toString checked)])
       [] (logEnabledCheckbox tab).

(** The elements that only display a value ([textContent]). *)
Record Displays : Type := mkDisplays {
  cameraZoomValue : option string;
  fpsValue : option string
}.

(** [select.value = v] on the difficulty select whose options have the
    values [options]: the first option with that value becomes selected, and
    without one nothing is selected and [select.value] reads as empty. *)
Definition select_assign (options : list string) (v : string) : string :=
  if bool_decide (v ∈ options) then v else "".

(** [resetToDefaults()].  [options] are the values of the difficulty
    select's options; [zoomRange] and [fpsRange] are what the two range
    inputs keep of a value assigned to them (each input's [min], [max] and
    [step] decide).  The result is
    the elements after the call, the lines printed with [console.debug],
    and the world [saveSettings] leaves. *)
Definition resetToDefaults (options : list string)
    (zoomRange fpsRange : string -> string) (tab : Tab) (displays : Displays) (w : World)
  : Tab * Displays * list string * World :=
  let fpsBoth := is_Some_b (fpsSlider tab) && is_Some_b (fpsValue displays) in
  let tab' :=
    {| difficultySelect :=
         (fun _ => select_assign options "basic") <$> difficultySelect tab;
       customSkillsCheckbox := (fun _ => false) <$> customSkillsCheckbox tab;
       cameraZoomSlider := (fun _ => zoomRange "20") <$> cameraZoomSlider tab;
       minimalModeCheckbox := (fun _ => false) <$> minimalModeCheckbox tab;
       fpsSlider := if fpsBoth then Some (fpsRange "60") else fpsSlider tab;
       showPerformanceInfoCheckbox :=
         (fun _ => false) <$> showPerformanceInfoCheckbox tab;
       debugModeCheckbox := (fun _ => false) <$> debugModeCheckbox tab;
       logEnabledCheckbox := (fun _ => false) <$> logEnabledCheckbox tab |} in
  let displays' :=
    {| cameraZoomValue :=
         if is_Some_b (cameraZoomSlider tab)
         then (fun _ => "20") <$> cameraZoomValue displays
         else cameraZoomValue displays;
       fpsValue := if fpsBoth then Some "60" else fpsValue displays |} in
  let console :=
    if is_Some_b (difficultySelect tab) then ["Reset difficulty to basic"]
    else [] in
  (tab', displays', console, saveSettings tab' w).

(** The difficulty select's part of [initializeDifficultySettings], up to
    the registration of its listener.  [levels] are the keys of
    [DIFFICULTY_SCALING.difficultyLevels], which become the options.  The
    result is [select.value], the lines printed with [console.debug], and
    the world left behind. *)
Definition initializeDifficultySelect (levels : list string) (w : World)
  : string * list string * World :=
  let currentDifficulty :=
    match getItem (DIFFICULTY K) w with
    | Some s => if String.eqb s "" then "basic" else s
    | None => "basic"
    end in
  let loading := "Loading difficulty setting: " +:+ currentDifficulty in
  let value := select_assign levels currentDifficulty in
  if String.eqb value "" then
    (select_assign levels "basic",
     [loading; "Invalid difficulty setting detected, defaulting to basic"],
     setItem (DIFFICULTY K) "basic" w)
  else (value, [loading], w).

End WithKeys.

(** A key table to run the tab on. *)
Definition sample_keys : StorageKeys :=
  {| DIFFICULTY := "difficulty";
     CUSTOM_SKILLS := "customSkills";
     CAMERA_ZOOM := "cameraZoom";
     MINIMAL_MODE := "minimalMode";
     QUALITY_LEVEL := "qualityLevel";
     TARGET_FPS := "targetFps";
     SHOW_PERFORMANCE_INFO := "showPerformanceInfo";
     DEBUG_MODE := "debugMode";
     LOG_ENABLED := "logEnabled" |}.

Definition empty_world : World :=
  {| localStorage := ∅; game := None; calls := [] |}.

End GameplayTab.

(** ** The chunk generation scheduler *)

Module GenerationScheduler.

(** Modelled from the spec: the scheduler's code is not among the source
    files at hand.  A chunk coordinate is the integer pair [(cx, cz)]. *)
Definition ChunkCoordinate : Type := Z * Z.

(** Modelled from the spec: the LOD tier of a chunk, which the scheduler's
    missing code assigns by distance band. *)
Inductive LodTier : Type := near | mid | far | buffer | unloaded.

(** Modelled from the spec: the forward-only generation pipeline of a chunk
    (the state machine of the missing scheduler). *)
Inductive GenerationStage : Type :=
  | absent
  | terrainQueued
  | terrainReady
  | structuresQueued
  | structuresReady
  | environmentQueued
  | fullyPopulated.

#[global] Instance GenerationStage_eq_dec : EqDecision GenerationStage.
Proof. solve_decision. Defined.

(** Modelled from the spec: the per-chunk record of the missing scheduler,
    keyed by coordinate. *)
Record ChunkState : Type := mkChunkState {
  lodTier : LodTier;
  generationStage : GenerationStage;
  lastTouchedFrame : nat
}.

(** Modelled from the spec: the three work categories with a quota. *)
Inductive Category : Type := Terrain | Structure | Environment.

#[global] Instance Category_eq_dec : EqDecision Category.
Proof. solve_decision. Defined.

(** Modelled from the spec: the actions a frame's batch is made of.  The
    three generation actions are the quota-consuming transitions
    [absent -> terrainQueued], [terrainReady -> structuresQueued] and
    [structuresReady -> environmentQueued] of the missing scheduler. *)
Inductive Action : Type :=
  | Evict (c : ChunkCoordinate)
  | GenerateTerrain (c : ChunkCoordinate) (tier : LodTier)
  | GenerateStructures (c : ChunkCoordinate)
  | GenerateEnvironment (c : ChunkCoordinate).

(** Modelled from the spec: the quota fields of the profile as the missing
    scheduler reads them, non-negative integers. *)
Record Quotas : Type := mkQuotas {
  chunksPerFrame : nat;
  structureChunksPerFrame : nat;
  envChunksPerFrame : nat
}.

(** Modelled from the spec: the stage of a coordinate in the resident set
    of the missing scheduler; a coordinate without a record is [absent]. *)
Definition stage_of (resident : gmap ChunkCoordinate ChunkState)
    (c : ChunkCoordinate) : GenerationStage :=
  match resident !! c with
  | Some st => generationStage st
  | None => absent
  end.

(** Modelled from the spec: the desired chunks (nearest first) that wait at
    [stage], in the order the missing scheduler serves them. *)
Definition pending (stage : GenerationStage)
    (desired : list (ChunkCoordinate * LodTier))
    (resident : gmap ChunkCoordinate ChunkState)
  : list (ChunkCoordinate * LodTier) :=
  filter (fun ct => stage_of resident ct.1 = stage) desired.

(** Modelled from the spec: the resident coordinates that are no longer
    desired, which the missing scheduler evicts without a quota. *)
Definition stale (desired : list (ChunkCoordinate * LodTier))
    (resident : gmap ChunkCoordinate ChunkState) : list ChunkCoordinate :=
  filter (fun c => c ∉ desired.*1) (map_to_list resident).*1.

(** Modelled from the spec: [step(desired, resident, profile)] of the
    missing scheduler, one frame tick.  Evictions come first and are not
    limited; each generation category takes the nearest pending chunks up
    to its own quota and leaves the rest for a later frame. *)
Definition step (desired : list (ChunkCoordinate * LodTier))
    (resident : gmap ChunkCoordinate ChunkState) (profile : Quotas)
  : list Action :=
  (Evict <$> stale desired resident)
  ++ ((fun ct => GenerateTerrain ct.1 ct.2)
        <$> take (chunksPerFrame profile) (pending absent desired resident))
  ++ ((fun ct => GenerateStructures ct.1)
        <$> take (structureChunksPerFrame profile)
                 (pending terrainReady desired resident))
  ++ ((fun ct => GenerateEnvironment ct.1)
        <$> take (envChunksPerFrame profile)
                 (pending structuresReady desired resident)).

(** Modelled from the spec: the quota category an action of the missing
    scheduler draws from; eviction draws from none. *)
Definition category (a : Action) : option Category :=
  match a with
  | Evict _ => None
  | GenerateTerrain _ _ => Some Terrain
  | GenerateStructures _ => Some Structure
  | GenerateEnvironment _ => Some Environment
  end.

(** Modelled from the spec: how many actions of a batch of the missing
    scheduler belong to a category. *)
Definition emitted (k : Category) (batch : list Action) : nat :=
  length (filter (fun a => category a = Some k) batch).

(** A quota field of a resolved profile as a natural number, when it is a
    non-negative integer. *)
Definition quota_of (n : JSNumber) : option nat :=
  match n with
  | Finite q =>
      if isInteger n && Qle_bool 0 q then Some (Z.to_nat (Qfloor q)) else None
  | _ => None
  end.

(** The quotas of a resolved profile. *)
Definition quotas_of (p : PerformanceProfile.Profile) : option Quotas :=
  match quota_of (PerformanceProfile.chunksPerFrame p),
        quota_of (PerformanceProfile.structureChunksPerFrame p),
        quota_of (PerformanceProfile.envChunksPerFrame p) with
  | Some c, Some s, Some e => Some (mkQuotas c s e)
  | _, _, _ => None
  end.

End GenerationScheduler.

(** ** VirtualJoystickUI.js *)

Module VirtualJoystickUI.

(** The double-precision operations the joystick computes with, and the
    conversion of a number inside a template literal.  They are taken as
    given: nothing below depends on how they round. *)
Record Arithmetic : Type := mkArithmetic {
  add : JSNumber -> JSNumber -> JSNumber;
  sub : JSNumber -> JSNumber -> JSNumber;
  mul : JSNumber -> JSNumber -> JSNumber;
  div : JSNumber -> JSNumber -> JSNumber;
  Math_sqrt : JSNumber -> JSNumber;
  Math_min : JSNumber -> JSNumber -> JSNumber;
  Number_toString : JSNumber -> string
}.

(** A [Touch] of a touch event. *)
Record Touch : Type := mkTouch {
  identifier : Z;
  clientX : JSNumber;
  clientY : JSNumber
}.

(** What [this.container.getBoundingClientRect()] returns. *)
Record DOMRect : Type := mkDOMRect {
  left : JSNumber;
  top : JSNumber;
  width : JSNumber;
  height : JSNumber
}.

Record Direction : Type := mkDirection { x : JSNumber; y : JSNumber }.

(** [this.joystickState]; a [touchId] of [None] is null. *)
Record JoystickState : Type := mkJoystickState {
  active : bool;
  touchId : option Z;
  centerX : JSNumber;
  centerY : JSNumber;
  currentX : JSNumber;
  currentY : JSNumber;
  direction : Direction
}.

(** The component: its joystick state, the inline [transform] of the
    handle, and whether its [mousemove] and [mouseup] listeners are
    registered on the document. *)
Record Component : Type := mkComponent {
  joystickState : JoystickState;
  handleTransform : string;
  mouseListeners : bool
}.

(** The state the constructor sets up. *)
Definition initial : Component :=
  {| joystickState :=
       {| active := false; touchId := None;
          centerX := num 0; centerY := num 0;
          currentX := num 0; currentY := num 0;
          direction := {| x := num 0; y := num 0 |} |};
     handleTransform := "";
     mouseListeners := false |}.

(** [findJoystickTouch(touchList)]; [None] is null. *)
Definition findJoystickTouch (st : JoystickState) (touchList : list Touch)
  : option Touch :=
  match touchId st with
  | None => head touchList
  | Some id => List.find (fun t => Z.eqb (identifier t) id) touchList
  end.

(** [isJoystickTouchEnded(changedTouches)] *)
Definition isJoystickTouchEnded (st : JoystickState)
    (changedTouches : list Touch) : bool :=
  match touchId st with
  | None => Nat.ltb 0 (length changedTouches)
  | Some id => List.existsb (fun t => Z.eqb (identifier t) id) changedTouches
  end.

Section WithArithmetic.

Variable A : Arithmetic.

(** [handleJoystickMove(clientX, clientY)], with [rect] the bounding
    rectangle of the container at the time of the call. *)
Definition handleJoystickMove (rect : DOMRect) (clientX clientY : JSNumber)
    (c : Component) : Component :=
  let st := joystickState c in
  if negb (active st) then c
  else
    let deltaX := sub A clientX (centerX st) in
    let deltaY := sub A clientY (centerY st) in
    let distance :=
      Math_sqrt A (add A (mul A deltaX deltaX) (mul A deltaY deltaY)) in
    let radius := div A (width rect) (num 2) in
    let limitedDistance := Math_min A distance radius in
    let normalizedX := div A deltaX distance in
    let normalizedY := div A deltaY distance in
    let newX := mul A normalizedX limitedDistance in
    let newY := mul A normalizedY limitedDistance in
    {| joystickState :=
         {| active := active st; touchId := touchId st;
            centerX := centerX st; centerY := centerY st;
            currentX := newX; currentY := newY;
            direction := {| x := div A newX radius; y := div A newY radius |} |};
       handleTransform :=
         "translate(calc(-50% + " +:+ Number_toString A newX
         +:+ "px), calc(-50% + " +:+ Number_toString A newY +:+ "px))";
       mouseListeners := mouseListeners c |}.

(** [handleJoystickStart(clientX, clientY, touchId = null)] *)
Definition handleJoystickStart (rect : DOMRect) (clientX clientY : JSNumber)
    (touch : option Z) (c : Component) : Component :=
  let st := joystickState c in
  let started :=
    {| joystickState :=
         {| active := true; touchId := touch;
            centerX := add A (left rect) (div A (width rect) (num 2));
            centerY := add A (top rect) (div A (height rect) (num 2));
            currentX := currentX st; currentY := currentY st;
            direction := direction st |};
       handleTransform := handleTransform c;
       mouseListeners := mouseListeners c |} in
  handleJoystickMove rect clientX clientY started.

(** [handleJoystickEnd()] *)
Definition handleJoystickEnd (c : Component) : Component :=
  let st := joystickState c in
  {| joystickState :=
       {| active := false; touchId := None;
          centerX := centerX st; centerY := centerY st;
          currentX := currentX st; currentY := currentY st;
          direction := {| x := num 0; y := num 0 |} |};
     handleTransform := "translate(-50%, -50%)";
     mouseListeners := mouseListeners c |}.

(** [getJoystickDirection()] *)
Definition getJoystickDirection (c : Component) : Direction :=
  direction (joystickState c).

(** The events [setupJoystickEvents] listens to: five on the container and,
    while registered, mouse moves and releases anywhere in the document. *)
Inductive Event : Type :=
  | touchstart (changedTouches : list Touch)
  | mousedown (clientX clientY : JSNumber)
  | touchmove (targetTouches : list Touch)
  | touchend (changedTouches : list Touch)
  | touchcancel (changedTouches : list Touch)
  | mousemove (clientX clientY : JSNumber)
  | mouseup.

(** The listener that [setupJoystickEvents] registered for an event, run on
    the component; [rect] is the container's rectangle at that time. *)
Definition dispatch (rect : DOMRect) (event : Event) (c : Component)
  : Component :=
  match event with
  | touchstart changedTouches =>
      match changedTouches with
      | touch :: _ =>
          handleJoystickStart rect (clientX touch) (clientY touch)
            (Some (identifier touch)) c
      | [] => c
      end
  | mousedown clientX clientY =>
      let c := handleJoystickStart rect clientX clientY None c in
      {| joystickState := joystickState c;
         handleTransform := handleTransform c;
         mouseListeners := true |}
  | touchmove targetTouches =>
      if active (joystickState c) && Nat.ltb 0 (length targetTouches) then
        match findJoystickTouch (joystickState c) targetTouches with
        | Some touch => handleJoystickMove rect (clientX touch) (clientY touch) c
        | None => c
        end
      else c
  | touchend changedTouches | touchcancel changedTouches =>
      if isJoystickTouchEnded (joystickState c) changedTouches
      then handleJoystickEnd c
      else c
  | mousemove clientX clientY =>
      if mouseListeners c then
        if active (joystickState c)
        then handleJoystickMove rect clientX clientY c
        else c
      else c
  | mouseup =>
      if mouseListeners c then
        let c := handleJoystickEnd c in
        {| joystickState := joystickState c;
           handleTransform := handleTransform c;
           mouseListeners := false |}
      else c
  end.

(** The component after a sequence of events, earliest first, each with
    the container's rectangle at its time. *)
Definition run (events : list (DOMRect * Event)) (c : Component) : Component :=
  foldl (fun c e => dispatch e.1 e.2 c) c events.

End WithArithmetic.

(** What double arithmetic does around zero, as far as the joystick meets
    it: 0 * 0, 0 + 0 and the square root of 0 are 0, 0 / 0 is NaN, and a
    NaN operand makes a product or a quotient NaN. *)
Definition zero_laws (A : Arithmetic) : Prop :=
  mul A (num 0) (num 0) = num 0
  /\ add A (num 0) (num 0) = num 0
  /\ Math_sqrt A (num 0) = num 0
  /\ div A (num 0) (num 0) = NaN
  /\ (forall v, mul A NaN v = NaN)
  /\ (forall v, div A NaN v = NaN).

(** Exact rational arithmetic on finite numbers, to run the joystick on:
    NaN wherever an operand is not finite, a divisor is 0 or a square root
    is taken of a negative number, and square roots rounded down to a
    fraction of the same denominator. *)
Definition sample_arithmetic : Arithmetic :=
  let lift (f : Q -> Q -> Q) (a b : JSNumber) : JSNumber :=
    match a, b with
    | Finite p, Finite q => Finite (Qred (f p q))
    | _, _ => NaN
    end in
  {| add := lift Qplus;
     sub := lift Qminus;
     mul := lift Qmult;
     div := fun a b =>
       match a, b with
       | Finite p, Finite q =>
           if Qeq_bool q 0 then NaN else Finite (Qred (Qdiv p q))
       | _, _ => NaN
       end;
     Math_sqrt := fun a =>
       match a with
       | Finite q =>
           if Qle_bool 0 q
           then Finite (Qred (Z.sqrt (Qnum q * Z.pos (Qden q)) # Qden q))
           else NaN
       | _ => NaN
       end;
     Math_min := fun a b =>
       match a, b with
       | NaN, _ | _, NaN => NaN
       | _, _ => if num_leb a b then a else b
       end;
     Number_toString := fun a =>
       match a with
       | Finite q =>
           if Z.eqb (Z.pos (Qden q)) 1
           then (if Z.ltb (Qnum q) 0 then "-" else "")
                +:+ pretty (Z.abs_N (Qnum q))
           else "?"
       | Infinity => "Infinity"
       | NegInfinity => "-Infinity"
       | NaN => "NaN"
       end |}.

End VirtualJoystickUI.

(** ** The specification's reading of a mode argument *)

(** The spec's mode is one of [normal] and [minimal]; an argument names the
    minimal mode when it is the flag [true] or the mode name ['minimal'].
    Every other argument, an unrecognised mode name among them, does not. *)
Definition selects_minimal (mode : JSValue) : bool :=
  match mode with
  | JSBoolean b => b
  | JSString s => String.eqb s "minimal"
  | _ => false
  end.

(** ** What the claims about the scene say of one object *)

(** Shadows are off on an object: a mesh neither casts nor receives them,
    and a light that has a shadow does not cast. *)
Definition shadows_off (o : SceneOptimizer.Props) : Prop :=
  (SceneOptimizer.isMesh o = true ->
     SceneOptimizer.castShadow o = false
     /\ SceneOptimizer.receiveShadow o = false)
  /\ (SceneOptimizer.isLight o = true ->
        is_Some (SceneOptimizer.shadow o) ->
        SceneOptimizer.castShadow o = false).

(** An object is the same kind of object after the call as before, and if
    it is a mesh its [castShadow] flag is the one it had. *)
Definition castShadow_kept (before after : SceneOptimizer.Props) : Prop :=
  SceneOptimizer.isMesh after = SceneOptimizer.isMesh before
  /\ (SceneOptimizer.isMesh before = true ->
        SceneOptimizer.castShadow after = SceneOptimizer.castShadow before).

(** A small scene: a group holding a shadow-casting mesh with a textured
    material, a mesh that casts no shadow, and a directional light with an
    orthographic shadow camera that holds a further mesh. *)
Definition sample_scene : SceneOptimizer.Scene :=
  let plain := SceneOptimizer.mkProps false false false false false false
                 SceneOptimizer.NoMaterial None in
  let texture := SceneOptimizer.mkTexture (num 16) (num 1008) (num 1006) true in
  let mat := SceneOptimizer.mkMaterial None false (Some texture) false in
  let caster := SceneOptimizer.mkProps true false false true true false
                  (SceneOptimizer.OneMaterial mat) None in
  let quiet := SceneOptimizer.mkProps true false true false true true
                 (SceneOptimizer.MaterialArray [mat; mat]) None in
  let cam := SceneOptimizer.mkCamera true (num (-5)) (num 5) (num 5) (num (-5)) 0 in
  let sun := SceneOptimizer.mkProps false true true true false true
               SceneOptimizer.NoMaterial
               (Some (SceneOptimizer.mkLightShadow (num 512) (num 512) (Some cam))) in
  {| SceneOptimizer.scene_fog := JSNull;
     SceneOptimizer.scene_root :=
       SceneOptimizer.Node plain
         [SceneOptimizer.Node plain
            [SceneOptimizer.Node caster []; SceneOptimizer.Node quiet []];
          SceneOptimizer.Node sun [SceneOptimizer.Node caster []]] |}.

(** ** Further notions about scene objects *)

(** No shadow flag of the object was switched on. *)
Definition no_shadow_gained (before after : SceneOptimizer.Props) : Prop :=
  (SceneOptimizer.castShadow after = true ->
     SceneOptimizer.castShadow before = true)
  /\ (SceneOptimizer.receiveShadow after = true ->
        SceneOptimizer.receiveShadow before = true).


(** What [optimizeScene] establishes on a material: the precision of the
    mode, the scene's fog, an anisotropy of 1 on its texture, and in minimal
    mode flat shading and an unfiltered texture without mipmaps. *)
Definition material_optimized (isMinimal fogOn : bool)
    (m : SceneOptimizer.Material) : Prop :=
  SceneOptimizer.precision m = Some (if isMinimal then "lowp" else "mediump")
  /\ SceneOptimizer.fog m = fogOn
  /\ (isMinimal = true -> SceneOptimizer.flatShading m = true)
  /\ (forall t, SceneOptimizer.map m = Some t ->
        SceneOptimizer.anisotropy t = num 1
        /\ (isMinimal = true ->
              SceneOptimizer.minFilter t = SceneOptimizer.NearestFilter
              /\ SceneOptimizer.magFilter t = SceneOptimizer.NearestFilter
              /\ SceneOptimizer.generateMipmaps t = false)).

(** A mesh is frustum culled and all its materials are optimized. *)
Definition mesh_optimized (isMinimal fogOn : bool)
    (o : SceneOptimizer.Props) : Prop :=
  SceneOptimizer.isMesh o = true ->
  SceneOptimizer.frustumCulled o = true
  /\ Forall (material_optimized isMinimal fogOn)
            (SceneOptimizer.materials_of (SceneOptimizer.material o)).

(** The object is what the single-object helpers would have made of it: a
    light that is no mesh is as [optimizeLight] leaves it, and a mesh that
    is no light is as [optimizeMesh] leaves it, with [matrixAutoUpdate] set
    in addition when it casts a shadow. *)
Definition as_single_helpers (hasFog : bool)
    (before after : SceneOptimizer.Props) : Prop :=
  (SceneOptimizer.isMesh before = false ->
   SceneOptimizer.isLight before = true ->
   after = SceneOptimizer.optimizeLight before)
  /\ (SceneOptimizer.isMesh before = true ->
      SceneOptimizer.isLight before = false ->
      after = (if SceneOptimizer.castShadow before
               then SceneOptimizer.set_matrixAutoUpdate true
                      (SceneOptimizer.optimizeMesh before (Some hasFog))
               else SceneOptimizer.optimizeMesh before (Some hasFog))).

(** ** Further notions about the settings storage *)

(** The two keys that persist the performance mode tell the same story:
    the quality level is ['minimal'] exactly when the minimal-mode flag is
    ['true'], and ['ultra'] exactly when it is ['false']. *)
Definition mode_keys_agree (K : GameplayTab.StorageKeys)
    (w : GameplayTab.World) : Prop :=
  (GameplayTab.getItem (GameplayTab.QUALITY_LEVEL K) w = Some "minimal"
   <-> GameplayTab.getItem (GameplayTab.MINIMAL_MODE K) w = Some "true")
  /\ (GameplayTab.getItem (GameplayTab.QUALITY_LEVEL K) w = Some "ultra"
      <-> GameplayTab.getItem (GameplayTab.MINIMAL_MODE K) w = Some "false").

(** [stored || 'basic'] for a value read with [getItem]. *)
Definition or_basic (stored : option string) : string :=
  match stored with
  | Some s => if String.eqb s "" then "basic" else s
  | None => "basic"
  end.

(** A tab with every element present, and a world with a full game. *)
Definition sample_tab : GameplayTab.Tab :=
  GameplayTab.mkTab (Some "") (Some true) (Some "35") (Some true)
    (Some "30") (Some false) (Some true) (Some false).

Definition sample_world : GameplayTab.World :=
  GameplayTab.mkWorld {[ "difficulty" := "nightmare"; "volume" := "7" ]}
    (Some (GameplayTab.mkGame None true true true true)) [].

(** ** Further notions about the joystick *)

(** A joystick that is not active tracks no finger and points nowhere. *)
Definition at_rest (c : VirtualJoystickUI.Component) : Prop :=
  VirtualJoystickUI.active (VirtualJoystickUI.joystickState c) = false ->
  VirtualJoystickUI.touchId (VirtualJoystickUI.joystickState c) = None
  /\ VirtualJoystickUI.getJoystickDirection c
     = VirtualJoystickUI.mkDirection (num 0) (num 0).

(** A container of 100 by 100 pixels at (20, 300), and two fingers. *)
Definition sample_rect : VirtualJoystickUI.DOMRect :=
  VirtualJoystickUI.mkDOMRect (num 20) (num 300) (num 100) (num 100).

Definition thumb (clientX clientY : Z) : VirtualJoystickUI.Touch :=
  VirtualJoystickUI.mkTouch 7 (num clientX) (num clientY).

Definition skill_finger : VirtualJoystickUI.Touch :=
  VirtualJoystickUI.mkTouch 3 (num 600) (num 320).

(** * Properties of the performance profile *)

Import PerformanceProfile.

Lemma getPerformanceProfile_level (isMinimal : JSValue) :
  getPerformanceProfile isMinimal
  = match level_of isMinimal with
    | Normal => normal_profile
    | Minimal => minimal_profile
    end.
Proof.
  unfold getPerformanceProfile, getPerformanceProfile_run, level_of.
  destruct (ToBoolean isMinimal); reflexivity.
Qed.

Lemma tiers_differ : normal_profile <> minimal_profile.
Proof. intros H. apply (f_equal viewDistance) in H. discriminate H. Qed.

(** Case split on the two levels a call can select. *)
Ltac by_level v :=
  rewrite (getPerformanceProfile_level v);
  destruct (level_of v); vm_compute; repeat split; reflexivity.

(** C1 (as stated, refuted): the string ['ultra'] is not a name of the
    minimal mode, the settings tab even stores it for the non-minimal
    choice, yet [getPerformanceProfile('ultra')] is the minimal profile and
    not the normal one. *)
Lemma C1_unknown_mode_counterexample :
  selects_minimal (JSString "ultra") = false
  /\ getPerformanceProfile (JSString "ultra") = minimal_profile
  /\ getPerformanceProfile (JSString "ultra") <> normal_profile.
Proof.
  split; [reflexivity|]. split; [reflexivity|].
  change (getPerformanceProfile (JSString "ultra")) with minimal_profile.
  intros H. symmetry in H. exact (tiers_differ H).
Qed.

(** C1 (amended): [getPerformanceProfile] is defined on every argument and
    returns one of the two tier profiles, never a mixture; it returns the
    profile of the ['normal'] entries exactly when the argument is falsy,
    and the profile of the ['minimal'] entries exactly when it is truthy;
    in particular a missing argument gives the normal profile and every
    non-empty string, whatever mode it spells, gives the minimal one. *)
Theorem C1_resolve_by_truthiness (isMinimal : JSValue) :
  getPerformanceProfile isMinimal
    = (if ToBoolean isMinimal then minimal_profile else normal_profile)
  /\ (getPerformanceProfile isMinimal = normal_profile
      <-> ToBoolean isMinimal = false)
  /\ (getPerformanceProfile isMinimal = minimal_profile
      <-> ToBoolean isMinimal = true)
  /\ getPerformanceProfile JSUndefined = normal_profile
  /\ (forall s : string,
        getPerformanceProfile (JSString s)
        = if String.eqb s "" then normal_profile else minimal_profile).
Proof.
  assert (E : getPerformanceProfile isMinimal
              = if ToBoolean isMinimal then minimal_profile else normal_profile).
  { rewrite getPerformanceProfile_level. unfold level_of.
    destruct (ToBoolean isMinimal); reflexivity. }
  split; [exact E|]. rewrite E.
  repeat split.
  - destruct (ToBoolean isMinimal); [|reflexivity].
    intros H. symmetry in H. destruct (tiers_differ H).
  - intros ->. reflexivity.
  - destruct (ToBoolean isMinimal); [reflexivity|].
    intros H. destruct (tiers_differ H).
  - intros ->. reflexivity.
  - intros s. rewrite getPerformanceProfile_level. unfold level_of. simpl.
    destruct (String.eqb s ""); reflexivity.
Qed.

(** C2: the minimal profile has a structure density and a view distance no
    larger than the normal profile's, and a shadow caster distance of 0. *)
Theorem C2_minimal_dominated :
  num_leb (structureDensity (getPerformanceProfile (JSBoolean true)))
          (structureDensity (getPerformanceProfile (JSBoolean false))) = true
  /\ num_leb (viewDistance (getPerformanceProfile (JSBoolean true)))
             (viewDistance (getPerformanceProfile (JSBoolean false))) = true
  /\ shadowCasterDistance (getPerformanceProfile (JSBoolean true)) = num 0.
Proof. repeat split; reflexivity. Qed.

(** C4: whatever the argument, the resolved profile has
    [bufferDistance >= viewDistance], and both are integers. *)
Theorem C4_buffer_covers_view (isMinimal : JSValue) :
  let p := getPerformanceProfile isMinimal in
  num_leb (viewDistance p) (bufferDistance p) = true
  /\ isInteger (viewDistance p) = true
  /\ isInteger (bufferDistance p) = true.
Proof. cbv zeta. by_level isMinimal. Qed.

(** C7: whatever the argument, the three per-frame quotas of the resolved
    profile are non-negative integers and the two density multipliers lie
    in the closed interval from 0 to 1. *)
Theorem C7_quotas_and_densities (isMinimal : JSValue) :
  let p := getPerformanceProfile isMinimal in
  (isInteger (chunksPerFrame p) = true
   /\ num_leb (num 0) (chunksPerFrame p) = true)
  /\ (isInteger (structureChunksPerFrame p) = true
      /\ num_leb (num 0) (structureChunksPerFrame p) = true)
  /\ (isInteger (envChunksPerFrame p) = true
      /\ num_leb (num 0) (envChunksPerFrame p) = true)
  /\ (num_leb (num 0) (environmentDensity p) = true
      /\ num_leb (environmentDensity p) (num 1) = true)
  /\ (num_leb (num 0) (structureDensity p) = true
      /\ num_leb (structureDensity p) (num 1) = true).
Proof. cbv zeta. by_level isMinimal. Qed.

(** C8: a call leaves the tables as it found them, whatever they hold, and
    a second call with the same argument returns the same profile; the
    argument matters only through its truthiness. *)
Theorem C8_resolution_pure (isMinimal : JSValue) (t : Tables) :
  let first := getPerformanceProfile_run isMinimal t in
  let second := getPerformanceProfile_run isMinimal (snd first) in
  snd first = t
  /\ snd second = t
  /\ fst second = fst first
  /\ (forall other : JSValue,
        ToBoolean other = ToBoolean isMinimal ->
        getPerformanceProfile_run other t = first).
Proof.
  cbv zeta. repeat split.
  intros other H. unfold getPerformanceProfile_run, level_of. rewrite H.
  reflexivity.
Qed.

(** C9: in each level of [TERRAIN_LOD] the resolutions fall strictly from
    near to mid to far to buffer and stay above 0, and no minimal
    resolution exceeds the normal resolution of the same band. *)
Theorem C9_lod_strictly_decreasing :
  (forall level : Level,
     let lod := at_level TERRAIN_LOD level in
     num_ltb (midResolution lod) (nearResolution lod) = true
     /\ num_ltb (farResolution lod) (midResolution lod) = true
     /\ num_ltb (bufferResolution lod) (farResolution lod) = true
     /\ num_ltb (num 0) (bufferResolution lod) = true)
  /\ (forall isMinimal : JSValue,
        terrainLod (getPerformanceProfile isMinimal)
        = at_level TERRAIN_LOD (level_of isMinimal))
  /\ num_leb (nearResolution (minimal TERRAIN_LOD))
             (nearResolution (normal TERRAIN_LOD)) = true
  /\ num_leb (midResolution (minimal TERRAIN_LOD))
             (midResolution (normal TERRAIN_LOD)) = true
  /\ num_leb (farResolution (minimal TERRAIN_LOD))
             (farResolution (normal TERRAIN_LOD)) = true
  /\ num_leb (bufferResolution (minimal TERRAIN_LOD))
             (bufferResolution (normal TERRAIN_LOD)) = true.
Proof.
  split; [intros [|]; vm_compute; repeat split; reflexivity|].
  repeat split; reflexivity.
Qed.

(** * Properties of the scene optimizer *)

Section SceneGraph.

Import SceneOptimizer.

(** Induction over a scene graph, with the hypothesis for every child. *)
Lemma Object3D_tree_ind (P : Object3D -> Prop) :
  (forall p cs, Forall P cs -> P (Node p cs)) -> forall o, P o.
Proof.
  intros step. fix IH 1. intros [p cs]. apply step.
  induction cs as [|c cs IHcs]; constructor; [apply IH | exact IHcs].
Qed.

(** [traverse] applies its callback to each object, in visiting order, and
    neither adds nor drops one. *)
Lemma objects_traverse (callback : Props -> Props) (o : Object3D) :
  objects (traverse callback o) = List.map callback (objects o).
Proof.
  induction o as [p cs IH] using Object3D_tree_ind. simpl. f_equal.
  induction IH as [|c cs Hc _ IHcs]; simpl; [reflexivity|].
  rewrite List.map_app, Hc, IHcs. reflexivity.
Qed.

Lemma scene_objects_optimizeScene (scene : Scene) (q : option string) :
  scene_objects (optimizeScene scene q).1
  = List.map
      (optimizeObject (String.eqb (default "ultra" q) "minimal") (scene_fog scene))
      (scene_objects scene).
Proof. unfold scene_objects, optimizeScene. simpl. apply objects_traverse. Qed.

(** The callback never changes what kind of object it is given. *)
Lemma optimizeObject_kind (isMinimal : bool) (sceneFog : JSValue) (o : Props) :
  isMesh (optimizeObject isMinimal sceneFog o) = isMesh o
  /\ isLight (optimizeObject isMinimal sceneFog o) = isLight o.
Proof.
  unfold optimizeObject, optimizeLightPart, optimizeMeshPart.
  destruct o as [m l fc cs rs mu mat sh].
  destruct m, l, isMinimal, cs, mat, sh; simpl; split; reflexivity.
Qed.

Lemma optimizeObject_minimal (sceneFog : JSValue) (o : Props) :
  shadows_off (optimizeObject true sceneFog o).
Proof.
  unfold shadows_off, optimizeObject, optimizeLightPart, optimizeMeshPart.
  destruct o as [m l fc cs rs mu mat sh].
  destruct m, l, mat, sh; simpl; split; intros; try discriminate;
    try (split; reflexivity); try reflexivity;
    match goal with H : is_Some None |- _ => destruct H; discriminate end.
Qed.

Lemma optimizeObject_not_minimal (sceneFog : JSValue) (o : Props) :
  castShadow (optimizeObject false sceneFog o) = castShadow o.
Proof.
  unfold optimizeObject, optimizeLightPart, optimizeMeshPart.
  destruct o as [m l fc cs rs mu mat sh].
  destruct m, l, cs, mat, sh; reflexivity.
Qed.

Lemma Forall2_map_self {A : Type} (R : A -> A -> Prop) (f : A -> A) (l : list A) :
  (forall x, R x (f x)) -> Forall2 R l (List.map f l).
Proof. intros H. induction l; simpl; constructor; auto. Qed.

Lemma not_minimal_eqb (q : option string) :
  q <> Some "minimal" -> String.eqb (default "ultra" q) "minimal" = false.
Proof.
  intros H. destruct q as [s|]; simpl; [|reflexivity].
  apply String.eqb_neq. intros ->. apply H. reflexivity.
Qed.

End SceneGraph.

(** C5: after [optimizeScene(scene, 'minimal')] the scene has the objects it
    had, each of the kind it was, and among them every mesh has
    [castShadow] and [receiveShadow] false and every light that has a
    shadow has [castShadow] false. *)
Theorem C5_minimal_disables_shadows (scene : SceneOptimizer.Scene) :
  let after := (SceneOptimizer.optimizeScene scene (Some "minimal")).1 in
  Forall shadows_off (SceneOptimizer.scene_objects after)
  /\ List.map SceneOptimizer.isMesh (SceneOptimizer.scene_objects after)
     = List.map SceneOptimizer.isMesh (SceneOptimizer.scene_objects scene)
  /\ List.map SceneOptimizer.isLight (SceneOptimizer.scene_objects after)
     = List.map SceneOptimizer.isLight (SceneOptimizer.scene_objects scene).
Proof.
  cbv zeta. rewrite scene_objects_optimizeScene. simpl.
  generalize (SceneOptimizer.scene_objects scene) as os.
  generalize (SceneOptimizer.scene_fog scene) as sceneFog.
  intros sceneFog os. induction os as [|o os (IH1 & IH2 & IH3)]; simpl.
  - repeat split; constructor.
  - destruct (optimizeObject_kind true sceneFog o) as [Hm Hl].
    split; [constructor; [apply optimizeObject_minimal | exact IH1]|].
    split; f_equal; assumption.
Qed.

(** C10: for a quality level other than ['minimal'] (an omitted one
    included), [optimizeScene] keeps every object of the scene in place
    and of its kind, and every mesh keeps the [castShadow] flag it had. *)
Theorem C10_castShadow_unchanged (scene : SceneOptimizer.Scene)
    (qualityLevel : option string) :
  qualityLevel <> Some "minimal" ->
  Forall2 castShadow_kept
    (SceneOptimizer.scene_objects scene)
    (SceneOptimizer.scene_objects
       (SceneOptimizer.optimizeScene scene qualityLevel).1).
Proof.
  intros Hq. rewrite scene_objects_optimizeScene, (not_minimal_eqb _ Hq).
  apply Forall2_map_self. intros o. split.
  - apply optimizeObject_kind.
  - intros _. apply optimizeObject_not_minimal.
Qed.

Lemma C10_castShadow_unchanged_witness :
  Some "high" <> Some "minimal"
  /\ Forall2 castShadow_kept
       (SceneOptimizer.scene_objects sample_scene)
       (SceneOptimizer.scene_objects
          (SceneOptimizer.optimizeScene sample_scene (Some "high")).1).
Proof.
  split; [discriminate|].
  apply (C10_castShadow_unchanged sample_scene (Some "high")). discriminate.
Defined.

(** * Properties of the gameplay settings tab *)

Section Storage.

Import GameplayTab.

Lemma getItem_setItem_same (key value : string) (w : World) :
  getItem key (setItem key value w) = Some value.
Proof. unfold getItem, setItem. simpl. apply lookup_insert_eq. Qed.

Lemma getItem_setItem_other (key key' value : string) (w : World) :
  key' <> key -> getItem key (setItem key' value w) = getItem key w.
Proof. intros H. unfold getItem, setItem. simpl. by apply lookup_insert_ne. Qed.

Lemma getItem_call (key : string) (c : Call) (w : World) :
  getItem key (call c w) = getItem key w.
Proof. reflexivity. Qed.

(** Writing to an element's own key, when the element exists, leaves every
    other key as it was. *)
Lemma getItem_when_present_other {A : Type} (key key' : string)
    (element : option A) (value : A -> string) (w : World) :
  key' <> key ->
  getItem key (when_present element (fun a => setItem key' (value a)) w)
  = getItem key w.
Proof.
  intros H. destruct element; simpl; [|reflexivity].
  by apply getItem_setItem_other.
Qed.

Lemma quality_of_two_valued (isMinimal : bool) :
  (quality_of isMinimal = "minimal" <-> isMinimal = true)
  /\ (quality_of isMinimal = "ultra" <-> isMinimal = false).
Proof. destruct isMinimal; simpl; repeat split; intros; congruence. Qed.

End Storage.

(** C6 (as stated, refuted): with the checkbox unchecked, both the change
    listener and [saveSettings] store ['ultra'] under the quality-level
    key, which is neither ['normal'] nor ['minimal']. *)
Lemma C6_quality_level_counterexample :
  let K := GameplayTab.sample_keys in
  let tab := GameplayTab.mkTab None None None (Some false) None None None None in
  GameplayTab.getItem (GameplayTab.QUALITY_LEVEL K)
    (GameplayTab.onMinimalModeChange K false GameplayTab.empty_world)
  = Some "ultra"
  /\ GameplayTab.getItem (GameplayTab.QUALITY_LEVEL K)
       (GameplayTab.saveSettings K tab GameplayTab.empty_world)
     = Some "ultra"
  /\ "ultra" <> "normal"
  /\ "ultra" <> "minimal".
Proof.
  cbv zeta. split; [vm_compute; reflexivity|].
  split; [vm_compute; reflexivity|]. split; discriminate.
Qed.

(** C6 (amended): the quality level the settings tab persists is
    two-valued, but the two values are ['minimal'] and ['ultra']: whatever
    the key table, the game and the storage hold, the change listener and
    [saveSettings] both leave [isMinimal ? 'minimal' : 'ultra'] under the
    quality-level key, ['minimal'] exactly when the checkbox is checked
    (for [saveSettings], given that the keys it writes afterwards are
    other keys). *)
Theorem C6_quality_level_written (K : GameplayTab.StorageKeys)
    (isMinimal : bool) (tab : GameplayTab.Tab) (w : GameplayTab.World) :
  GameplayTab.minimalModeCheckbox tab = Some isMinimal ->
  Forall (fun key => key <> GameplayTab.QUALITY_LEVEL K)
         (GameplayTab.keys_after_quality K) ->
  let stored := if isMinimal then "minimal" else "ultra" in
  GameplayTab.getItem (GameplayTab.QUALITY_LEVEL K)
    (GameplayTab.onMinimalModeChange K isMinimal w) = Some stored
  /\ GameplayTab.getItem (GameplayTab.QUALITY_LEVEL K)
       (GameplayTab.saveSettings K tab w) = Some stored
  /\ (stored = "minimal" <-> isMinimal = true)
  /\ (stored = "ultra" <-> isMinimal = false).
Proof.
  intros Hbox Hkeys. cbv zeta.
  change (if isMinimal then "minimal" else "ultra")
    with (GameplayTab.quality_of isMinimal).
  split; [|split; [|apply quality_of_two_valued]].
  - unfold GameplayTab.onMinimalModeChange. cbv zeta.
    repeat match goal with
           | |- context [match ?x with _ => _ end] => destruct x
           end;
      rewrite ?getItem_call; apply getItem_setItem_same.
  - unfold GameplayTab.keys_after_quality in Hkeys.
    repeat match goal with
           | H : Forall _ (_ :: _) |- _ => apply Forall_cons_1 in H; destruct H
           end.
    unfold GameplayTab.saveSettings. cbv zeta. rewrite Hbox.
    rewrite !getItem_when_present_other by assumption.
    simpl. apply getItem_setItem_same.
Qed.

Lemma C6_quality_level_written_witness :
  let K := GameplayTab.sample_keys in
  let tab := GameplayTab.mkTab (Some "") (Some true) (Some "20") (Some false)
               (Some "60") (Some false) (Some true) (Some false) in
  let w := GameplayTab.mkWorld ∅
             (Some (GameplayTab.mkGame None true true true true)) [] in
  GameplayTab.getItem (GameplayTab.QUALITY_LEVEL K)
    (GameplayTab.onMinimalModeChange K false w) = Some "ultra"
  /\ GameplayTab.getItem (GameplayTab.QUALITY_LEVEL K)
       (GameplayTab.saveSettings K tab w) = Some "ultra".
Proof.
  cbv zeta.
  pose proof
    (C6_quality_level_written GameplayTab.sample_keys false
       (GameplayTab.mkTab (Some "") (Some true) (Some "20") (Some false)
          (Some "60") (Some false) (Some true) (Some false))
       (GameplayTab.mkWorld ∅
          (Some (GameplayTab.mkGame None true true true true)) [])
       eq_refl) as H.
  destruct H as (H1 & H2 & _).
  - repeat constructor; discriminate.
  - split; [exact H1 | exact H2].
Defined.

(** * Properties of the generation scheduler *)

Section Quotas.

Import GenerationScheduler.

Lemma emitted_app (k : Category) (xs ys : list Action) :
  emitted k (xs ++ ys) = emitted k xs + emitted k ys.
Proof. unfold emitted. by rewrite filter_app, length_app. Qed.

(** Actions that all draw from category [k] count in full. *)
Lemma emitted_all {A : Type} (k : Category) (act : A -> Action) (xs : list A) :
  (forall x, category (act x) = Some k) -> emitted k (act <$> xs) = length xs.
Proof.
  intros H. unfold emitted. induction xs as [|x xs IH]; [reflexivity|].
  rewrite fmap_cons, filter_cons_True by apply H. simpl. by rewrite IH.
Qed.

(** Actions none of which draws from category [k] do not count. *)
Lemma emitted_none {A : Type} (k : Category) (act : A -> Action) (xs : list A) :
  (forall x, category (act x) <> Some k) -> emitted k (act <$> xs) = 0.
Proof.
  intros H. unfold emitted. induction xs as [|x xs IH]; [reflexivity|].
  rewrite fmap_cons, filter_cons_False by apply H. exact IH.
Qed.

(** What a frame emits in every category: the quota, or the whole queue of
    that category when it is shorter. *)
Lemma emitted_step (desired : list (ChunkCoordinate * LodTier))
    (resident : gmap ChunkCoordinate ChunkState) (profile : Quotas) :
  emitted Terrain (step desired resident profile)
  = chunksPerFrame profile `min` length (pending absent desired resident)
  /\ emitted Structure (step desired resident profile)
     = structureChunksPerFrame profile
       `min` length (pending terrainReady desired resident)
  /\ emitted Environment (step desired resident profile)
     = envChunksPerFrame profile
       `min` length (pending structuresReady desired resident).
Proof.
  unfold step. rewrite !emitted_app.
  repeat split.
  - rewrite (emitted_none Terrain Evict) by discriminate.
    rewrite (emitted_all Terrain) by reflexivity.
    rewrite !(emitted_none Terrain) by discriminate.
    rewrite length_take. lia.
  - rewrite (emitted_none Structure Evict) by discriminate.
    rewrite (emitted_none Structure (fun ct => GenerateTerrain ct.1 ct.2))
      by discriminate.
    rewrite (emitted_all Structure) by reflexivity.
    rewrite (emitted_none Structure) by discriminate.
    rewrite length_take. lia.
  - rewrite (emitted_none Environment Evict) by discriminate.
    rewrite (emitted_none Environment (fun ct => GenerateTerrain ct.1 ct.2))
      by discriminate.
    rewrite (emitted_none Environment (fun ct => GenerateStructures ct.1))
      by discriminate.
    rewrite (emitted_all Environment) by reflexivity.
    rewrite length_take. lia.
Qed.

(** The quota fields that [getPerformanceProfile] resolves are quotas the
    scheduler can read: 1 each in the minimal tier, 2 each in the normal. *)
Lemma quotas_of_resolved (isMinimal : JSValue) :
  quotas_of (PerformanceProfile.getPerformanceProfile isMinimal)
  = Some (if ToBoolean isMinimal then mkQuotas 1 1 1 else mkQuotas 2 2 2).
Proof.
  rewrite getPerformanceProfile_level. unfold PerformanceProfile.level_of.
  destruct (ToBoolean isMinimal); reflexivity.
Qed.

End Quotas.

(** C3: in one frame the scheduler emits at most [chunksPerFrame] terrain
    actions, at most [structureChunksPerFrame] structure actions and at
    most [envChunksPerFrame] environment actions; and each count is fixed
    by its own quota alone: replacing the other two quotas by any values
    leaves it as it was. *)
Theorem C3_quota_conservation
    (desired : list (GenerationScheduler.ChunkCoordinate
                     * GenerationScheduler.LodTier))
    (resident : gmap GenerationScheduler.ChunkCoordinate
                     GenerationScheduler.ChunkState)
    (c s e : nat) :
  let batch := GenerationScheduler.step desired resident
                 (GenerationScheduler.mkQuotas c s e) in
  (GenerationScheduler.emitted GenerationScheduler.Terrain batch <= c
   /\ GenerationScheduler.emitted GenerationScheduler.Structure batch <= s
   /\ GenerationScheduler.emitted GenerationScheduler.Environment batch <= e)
  /\ (forall c' s' e' : nat,
        GenerationScheduler.emitted GenerationScheduler.Terrain
          (GenerationScheduler.step desired resident
             (GenerationScheduler.mkQuotas c s' e'))
        = GenerationScheduler.emitted GenerationScheduler.Terrain batch
        /\ GenerationScheduler.emitted GenerationScheduler.Structure
             (GenerationScheduler.step desired resident
                (GenerationScheduler.mkQuotas c' s e'))
           = GenerationScheduler.emitted GenerationScheduler.Structure batch
        /\ GenerationScheduler.emitted GenerationScheduler.Environment
             (GenerationScheduler.step desired resident
                (GenerationScheduler.mkQuotas c' s' e))
           = GenerationScheduler.emitted GenerationScheduler.Environment batch).
Proof.
  cbv zeta.
  destruct (emitted_step desired resident (GenerationScheduler.mkQuotas c s e))
    as (Ht & Hs & He).
  simpl in Ht, Hs, He. repeat split; try lia.
  - destruct (emitted_step desired resident
                (GenerationScheduler.mkQuotas c s' e')) as (-> & _ & _).
    rewrite Ht. reflexivity.
  - destruct (emitted_step desired resident
                (GenerationScheduler.mkQuotas c' s e')) as (_ & -> & _).
    rewrite Hs. reflexivity.
  - destruct (emitted_step desired resident
                (GenerationScheduler.mkQuotas c' s' e)) as (_ & _ & ->).
    rewrite He. reflexivity.
Qed.

(** * The model at work on concrete inputs *)

Example resolve_mode_names :
  PerformanceProfile.getPerformanceProfile (JSString "normal")
  = PerformanceProfile.minimal_profile
  /\ PerformanceProfile.getPerformanceProfile (JSString "")
     = PerformanceProfile.normal_profile
  /\ PerformanceProfile.viewDistance
       (PerformanceProfile.getPerformanceProfile (JSNum (num 0))) = num 3
  /\ PerformanceProfile.shadowCasterDistance
       (PerformanceProfile.getPerformanceProfile JSNull) = Infinity.
Proof. repeat split; reflexivity. Qed.

Example sample_scene_minimal :
  let after := (SceneOptimizer.optimizeScene sample_scene (Some "minimal")).1 in
  List.map SceneOptimizer.castShadow (SceneOptimizer.scene_objects sample_scene)
  = [false; false; true; false; true; true]
  /\ List.map SceneOptimizer.castShadow (SceneOptimizer.scene_objects after)
     = [false; false; false; false; false; false]
  /\ List.map SceneOptimizer.receiveShadow (SceneOptimizer.scene_objects after)
     = [false; false; false; false; false; false].
Proof. repeat split; reflexivity. Qed.

Example sample_scene_default_quality :
  let result := SceneOptimizer.optimizeScene sample_scene None in
  List.map SceneOptimizer.castShadow (SceneOptimizer.scene_objects result.1)
  = [false; false; true; false; true; true]
  /\ List.map SceneOptimizer.matrixAutoUpdate
       (SceneOptimizer.scene_objects result.1)
     = [false; false; true; true; true; true]
  /\ result.2 = "Scene optimizations applied for ultra quality".
Proof. repeat split; reflexivity. Qed.

Example change_listener_calls :
  GameplayTab.calls
    (GameplayTab.onMinimalModeChange GameplayTab.sample_keys true
       (GameplayTab.mkWorld ∅
          (Some (GameplayTab.mkGame None false true true false)) []))
  = [GameplayTab.applyQualitySettings "minimal"].
Proof. reflexivity. Qed.

(** One tick with a terrain quota of 1: the nearest absent chunk is queued,
    the next one waits, the chunk that left the buffer is evicted although
    no quota covers it. *)
Example step_scenario :
  let resident : gmap GenerationScheduler.ChunkCoordinate
                      GenerationScheduler.ChunkState :=
    {[ (5, 5)%Z := GenerationScheduler.mkChunkState GenerationScheduler.buffer
                     GenerationScheduler.fullyPopulated 7;
       (0, 0)%Z := GenerationScheduler.mkChunkState GenerationScheduler.near
                     GenerationScheduler.structuresReady 9 ]} in
  GenerationScheduler.step
    [((0, 0)%Z, GenerationScheduler.near); ((1, 0)%Z, GenerationScheduler.near);
     ((0, 1)%Z, GenerationScheduler.near)]
    resident (GenerationScheduler.mkQuotas 1 1 1)
  = [GenerationScheduler.Evict (5, 5)%Z;
     GenerationScheduler.GenerateTerrain (1, 0)%Z GenerationScheduler.near;
     GenerationScheduler.GenerateEnvironment (0, 0)%Z].
Proof. vm_compute. reflexivity. Qed.

(** * Further properties of the scene optimizer *)

Section SceneGraphMore.

Import SceneOptimizer.

Lemma traverse_traverse (f g : Props -> Props) (o : Object3D) :
  traverse f (traverse g o) = traverse (fun p => f (g p)) o.
Proof.
  induction o as [p cs IH] using Object3D_tree_ind. simpl. f_equal.
  induction IH as [|c cs Hc _ IHcs]; simpl; [reflexivity|].
  rewrite Hc, IHcs. reflexivity.
Qed.

Lemma traverse_ext (f g : Props -> Props) (o : Object3D) :
  (forall p, f p = g p) -> traverse f o = traverse g o.
Proof.
  intros Hfg. induction o as [p cs IH] using Object3D_tree_ind. simpl.
  rewrite Hfg. f_equal.
  induction IH as [|c cs Hc _ IHcs]; simpl; [reflexivity|].
  rewrite Hc, IHcs. reflexivity.
Qed.

Lemma map_idempotent {A : Type} (f : A -> A) (l : list A) :
  (forall a, f (f a) = f a) -> List.map f (List.map f l) = List.map f l.
Proof.
  intros Hf. induction l as [|a l IH]; simpl; [reflexivity|].
  rewrite Hf, IH. reflexivity.
Qed.

Lemma optimizeMaterial_idempotent (isMinimal : bool) (sceneFog : JSValue)
    (m : Material) :
  optimizeMaterial isMinimal sceneFog (optimizeMaterial isMinimal sceneFog m)
  = optimizeMaterial isMinimal sceneFog m.
Proof. destruct m as [p f [t|] fs], isMinimal; reflexivity. Qed.

Lemma optimizeMeshPart_idempotent (isMinimal : bool) (sceneFog : JSValue)
    (o : Props) :
  optimizeMeshPart isMinimal sceneFog (optimizeMeshPart isMinimal sceneFog o)
  = optimizeMeshPart isMinimal sceneFog o.
Proof.
  unfold optimizeMeshPart.
  destruct o as [m l fc cs rs mu mat sh].
  destruct m; [|reflexivity].
  destruct isMinimal, cs, mat as [|mt|ms]; simpl;
    rewrite ?optimizeMaterial_idempotent,
            ?(map_idempotent _ _ (optimizeMaterial_idempotent _ sceneFog));
    reflexivity.
Qed.

(** The light block never looks at what the mesh block writes, and the
    mesh block never looks at what the light block writes. *)
Lemma optimizeParts_commute (isMinimal : bool) (sceneFog : JSValue) (o : Props) :
  optimizeMeshPart isMinimal sceneFog (optimizeLightPart isMinimal o)
  = optimizeLightPart isMinimal (optimizeMeshPart isMinimal sceneFog o).
Proof.
  unfold optimizeMeshPart, optimizeLightPart.
  destruct o as [m l fc cs rs mu mat sh].
  destruct m, l, isMinimal, cs, mat, sh; reflexivity.
Qed.

Lemma optimizeLightPart_minimal_idempotent (o : Props) :
  optimizeLightPart true (optimizeLightPart true o) = optimizeLightPart true o.
Proof.
  unfold optimizeLightPart. destruct o as [m l fc cs rs mu mat sh].
  destruct l, sh; reflexivity.
Qed.

Lemma optimizeLightPart_again (o : Props) :
  optimizeLightPart false (optimizeLightPart false o)
  = reproject (optimizeLightPart false o).
Proof.
  unfold optimizeLightPart, reproject.
  destruct o as [m l fc cs rs mu mat sh].
  destruct l; [|reflexivity].
  destruct sh as [[w h [[[] ? ? ? ? ?]|]]|]; reflexivity.
Qed.

Lemma reproject_optimizeMeshPart (sceneFog : JSValue) (o : Props) :
  optimizeMeshPart false sceneFog (reproject o)
  = reproject (optimizeMeshPart false sceneFog o).
Proof.
  unfold optimizeMeshPart, reproject.
  destruct o as [m l fc cs rs mu mat sh].
  destruct m, l, cs, mat, sh; reflexivity.
Qed.

Lemma optimizeObject_minimal_idempotent (sceneFog : JSValue) (o : Props) :
  optimizeObject true sceneFog (optimizeObject true sceneFog o)
  = optimizeObject true sceneFog o.
Proof.
  unfold optimizeObject.
  rewrite optimizeParts_commute, optimizeMeshPart_idempotent.
  apply optimizeLightPart_minimal_idempotent.
Qed.

Lemma optimizeObject_again (sceneFog : JSValue) (o : Props) :
  optimizeObject false sceneFog (optimizeObject false sceneFog o)
  = reproject (optimizeObject false sceneFog o).
Proof.
  unfold optimizeObject.
  rewrite optimizeParts_commute, optimizeMeshPart_idempotent.
  apply optimizeLightPart_again.
Qed.

Lemma optimizeObject_no_shadow_gained (isMinimal : bool) (sceneFog : JSValue)
    (o : Props) :
  no_shadow_gained o (optimizeObject isMinimal sceneFog o).
Proof.
  unfold no_shadow_gained, optimizeObject, optimizeLightPart, optimizeMeshPart.
  destruct o as [m l fc cs rs mu mat sh].
  destruct m, l, isMinimal, cs, rs, mat, sh; simpl; split; intros H;
    first [reflexivity | discriminate H].
Qed.


Lemma optimizeObject_shadow_presence (isMinimal : bool) (sceneFog : JSValue)
    (o : Props) :
  is_Some (shadow (optimizeObject isMinimal sceneFog o)) -> is_Some (shadow o).
Proof.
  unfold optimizeObject, optimizeLightPart, optimizeMeshPart.
  destruct o as [m l fc cs rs mu mat sh].
  destruct sh; [intros _; eexists; reflexivity|].
  destruct m, l, isMinimal, cs, mat; simpl; intros H; exact H.
Qed.

(** Shadows that are off stay off through the callback. *)
Lemma optimizeObject_keeps_shadows_off (isMinimal : bool) (sceneFog : JSValue)
    (o : Props) :
  shadows_off o -> shadows_off (optimizeObject isMinimal sceneFog o).
Proof.
  intros [Hmesh Hlight].
  destruct (optimizeObject_kind isMinimal sceneFog o) as [Hm Hl].
  destruct (optimizeObject_no_shadow_gained isMinimal sceneFog o) as [Hc Hr].
  unfold shadows_off. rewrite Hm, Hl. split.
  - intros H. destruct (Hmesh H) as [Hc0 Hr0]. split.
    + destruct (castShadow (optimizeObject isMinimal sceneFog o));
        [rewrite Hc in Hc0 by reflexivity; discriminate Hc0 | reflexivity].
    + destruct (receiveShadow (optimizeObject isMinimal sceneFog o));
        [rewrite Hr in Hr0 by reflexivity; discriminate Hr0 | reflexivity].
  - intros H Hsh. apply optimizeObject_shadow_presence in Hsh.
    specialize (Hlight H Hsh).
    destruct (castShadow (optimizeObject isMinimal sceneFog o));
      [rewrite Hc in Hlight by reflexivity; discriminate Hlight | reflexivity].
Qed.

Lemma optimizeObject_sticky (isMinimal : bool) (sceneFog sceneFog' : JSValue)
    (o : Props) :
  shadows_off (optimizeObject isMinimal sceneFog' (optimizeObject true sceneFog o)).
Proof.
  apply optimizeObject_keeps_shadows_off, optimizeObject_minimal.
Qed.

Lemma optimizeMaterial_optimized (isMinimal : bool) (sceneFog : JSValue)
    (m : Material) :
  material_optimized isMinimal (ToBoolean sceneFog)
    (optimizeMaterial isMinimal sceneFog m).
Proof.
  unfold material_optimized, optimizeMaterial. simpl.
  split; [reflexivity|]. split; [reflexivity|].
  split; [intros ->; reflexivity|].
  intros t Ht. destruct (map m) as [t0|]; simpl in Ht; [|discriminate Ht].
  injection Ht as <-. unfold optimizeTexture.
  destruct isMinimal; simpl; split; try reflexivity.
  - intros _. repeat split; reflexivity.
  - intros H. discriminate H.
Qed.

Lemma optimizeObject_mesh_optimized (isMinimal : bool) (sceneFog : JSValue)
    (o : Props) :
  mesh_optimized isMinimal (ToBoolean sceneFog)
    (optimizeObject isMinimal sceneFog o).
Proof.
  unfold mesh_optimized. intros Hmesh.
  destruct (optimizeObject_kind isMinimal sceneFog o) as [Hm _].
  rewrite Hm in Hmesh.
  assert (E : frustumCulled (optimizeObject isMinimal sceneFog o) = true
              /\ materials_of (material (optimizeObject isMinimal sceneFog o))
                 = List.map (optimizeMaterial isMinimal sceneFog)
                     (materials_of (material o))).
  { unfold optimizeObject, optimizeLightPart, optimizeMeshPart.
    destruct o as [m l fc cs rs mu mat sh]. simpl in Hmesh. subst m.
    destruct l, isMinimal, cs, mat, sh; split; reflexivity. }
  destruct E as [-> ->]. split; [reflexivity|].
  induction (materials_of (material o)); simpl; constructor;
    [apply optimizeMaterial_optimized | assumption].
Qed.

Lemma optimizeObject_as_single_helpers (sceneFog : JSValue) (o : Props) :
  as_single_helpers (ToBoolean sceneFog) o (optimizeObject false sceneFog o).
Proof.
  unfold as_single_helpers, optimizeObject, optimizeLightPart, optimizeMeshPart,
    optimizeLight, optimizeMesh.
  destruct o as [m l fc cs rs mu mat sh]. simpl.
  split; intros -> ->; destruct cs, mat, sh; reflexivity.
Qed.

Lemma Forall_map_image {A : Type} (P : A -> Prop) (f : A -> A) (l : list A) :
  (forall a, P (f a)) -> Forall P (List.map f l).
Proof. intros H. induction l; simpl; constructor; auto. Qed.

End SceneGraphMore.


(** [optimizeScene] never switches a shadow flag on: at any quality level,
    an object that casts or receives shadows afterwards did so before. *)
Theorem optimizeScene_no_shadow_gained (scene : SceneOptimizer.Scene)
    (qualityLevel : option string) :
  Forall2 no_shadow_gained
    (SceneOptimizer.scene_objects scene)
    (SceneOptimizer.scene_objects
       (SceneOptimizer.optimizeScene scene qualityLevel).1).
Proof.
  rewrite scene_objects_optimizeScene.
  apply Forall2_map_self. intros o. apply optimizeObject_no_shadow_gained.
Qed.

(** Minimal mode is not undone by a later call: once a scene went through
    [optimizeScene(scene, 'minimal')], a further call at any quality level
    leaves the shadows of all meshes and shadowed lights off. *)
Theorem optimizeScene_minimal_sticky (scene : SceneOptimizer.Scene)
    (qualityLevel : option string) :
  let minimal := (SceneOptimizer.optimizeScene scene (Some "minimal")).1 in
  Forall shadows_off
    (SceneOptimizer.scene_objects
       (SceneOptimizer.optimizeScene minimal qualityLevel).1).
Proof.
  cbv zeta. rewrite !scene_objects_optimizeScene. simpl.
  rewrite List.map_map. apply Forall_map_image. intros o.
  apply optimizeObject_sticky.
Qed.

(** In minimal mode a second call changes nothing: the scene and the
    printed line are those of the first call. *)
Theorem optimizeScene_minimal_idempotent (scene : SceneOptimizer.Scene) :
  SceneOptimizer.optimizeScene
    (SceneOptimizer.optimizeScene scene (Some "minimal")).1 (Some "minimal")
  = SceneOptimizer.optimizeScene scene (Some "minimal").
Proof.
  unfold SceneOptimizer.optimizeScene. simpl. f_equal. f_equal.
  rewrite traverse_traverse. apply traverse_ext.
  apply optimizeObject_minimal_idempotent.
Qed.

(** At a quality level other than ['minimal'] a second call only runs
    [updateProjectionMatrix] once more on the orthographic shadow camera of
    each light; every other property of every object is as the first call
    left it. *)
Theorem optimizeScene_second_pass (scene : SceneOptimizer.Scene)
    (qualityLevel : option string) :
  qualityLevel <> Some "minimal" ->
  let once := (SceneOptimizer.optimizeScene scene qualityLevel).1 in
  let twice := (SceneOptimizer.optimizeScene once qualityLevel).1 in
  SceneOptimizer.scene_fog twice = SceneOptimizer.scene_fog once
  /\ SceneOptimizer.scene_root twice
     = SceneOptimizer.traverse SceneOptimizer.reproject
         (SceneOptimizer.scene_root once).
Proof.
  intros Hq. cbv zeta. split; [reflexivity|].
  unfold SceneOptimizer.optimizeScene. simpl.
  rewrite (not_minimal_eqb _ Hq), !traverse_traverse.
  apply traverse_ext. apply optimizeObject_again.
Qed.

Lemma optimizeScene_second_pass_witness :
  Some "low" <> Some "minimal"
  /\ SceneOptimizer.scene_root
       (SceneOptimizer.optimizeScene
          (SceneOptimizer.optimizeScene sample_scene (Some "low")).1
          (Some "low")).1
     = SceneOptimizer.traverse SceneOptimizer.reproject
         (SceneOptimizer.scene_root
            (SceneOptimizer.optimizeScene sample_scene (Some "low")).1).
Proof.
  split; [discriminate|].
  apply (optimizeScene_second_pass sample_scene (Some "low")). discriminate.
Defined.

(** After [optimizeScene], at any quality level, every mesh is frustum
    culled and every one of its materials has the precision of the mode
    (['lowp'] in minimal mode, ['mediump'] otherwise), the truthiness of the
    scene's fog as its [fog], an anisotropy of 1 on its texture, and in
    minimal mode flat shading and a nearest-filtered texture without
    mipmaps. *)
Theorem optimizeScene_meshes_optimized (scene : SceneOptimizer.Scene)
    (qualityLevel : option string) :
  Forall (mesh_optimized (String.eqb (default "ultra" qualityLevel) "minimal")
                         (ToBoolean (SceneOptimizer.scene_fog scene)))
    (SceneOptimizer.scene_objects
       (SceneOptimizer.optimizeScene scene qualityLevel).1).
Proof.
  rewrite scene_objects_optimizeScene.
  apply Forall_map_image. intros o. apply optimizeObject_mesh_optimized.
Qed.

(** At a quality level other than ['minimal'], [optimizeScene] does to each
    light what [optimizeLight] does and to each mesh what
    [optimizeMesh(mesh, !!scene.fog)] does, apart from also setting
    [matrixAutoUpdate] on the meshes that cast a shadow. *)
Theorem optimizeScene_as_single_helpers (scene : SceneOptimizer.Scene)
    (qualityLevel : option string) :
  qualityLevel <> Some "minimal" ->
  Forall2 (as_single_helpers (ToBoolean (SceneOptimizer.scene_fog scene)))
    (SceneOptimizer.scene_objects scene)
    (SceneOptimizer.scene_objects
       (SceneOptimizer.optimizeScene scene qualityLevel).1).
Proof.
  intros Hq. rewrite scene_objects_optimizeScene, (not_minimal_eqb _ Hq).
  apply Forall2_map_self. intros o. apply optimizeObject_as_single_helpers.
Qed.

Lemma optimizeScene_as_single_helpers_witness :
  None <> Some "minimal"
  /\ Forall2 (as_single_helpers false)
       (SceneOptimizer.scene_objects sample_scene)
       (SceneOptimizer.scene_objects
          (SceneOptimizer.optimizeScene sample_scene None).1).
Proof.
  split; [discriminate|].
  apply (optimizeScene_as_single_helpers sample_scene None). discriminate.
Defined.

(** Only ['minimal'] is told apart: any two other quality levels, an
    omitted one included, leave the same scene. *)
Theorem optimizeScene_levels_alike (scene : SceneOptimizer.Scene)
    (level1 level2 : option string) :
  level1 <> Some "minimal" ->
  level2 <> Some "minimal" ->
  (SceneOptimizer.optimizeScene scene level1).1
  = (SceneOptimizer.optimizeScene scene level2).1.
Proof.
  intros H1 H2. unfold SceneOptimizer.optimizeScene. simpl.
  rewrite (not_minimal_eqb _ H1), (not_minimal_eqb _ H2). reflexivity.
Qed.

Lemma optimizeScene_levels_alike_witness :
  Some "low" <> Some "minimal"
  /\ Some "ultra" <> Some "minimal"
  /\ (SceneOptimizer.optimizeScene sample_scene (Some "low")).1
     = (SceneOptimizer.optimizeScene sample_scene (Some "ultra")).1.
Proof.
  split; [discriminate|]. split; [discriminate|].
  apply (optimizeScene_levels_alike sample_scene (Some "low") (Some "ultra"));
    discriminate.
Defined.

(** [optimizeMesh] is idempotent, and it writes nothing but
    [frustumCulled], which it sets, and the materials: the shadow flags,
    [matrixAutoUpdate] and the kind of the object stay as they were. *)
Theorem optimizeMesh_idempotent (mesh : SceneOptimizer.Props)
    (hasFog : option bool) :
  let once := SceneOptimizer.optimizeMesh mesh hasFog in
  SceneOptimizer.optimizeMesh once hasFog = once
  /\ SceneOptimizer.frustumCulled once = true
  /\ SceneOptimizer.set_material (SceneOptimizer.material mesh)
       (SceneOptimizer.set_frustumCulled (SceneOptimizer.frustumCulled mesh) once)
     = mesh.
Proof.
  cbv zeta. unfold SceneOptimizer.optimizeMesh.
  destruct mesh as [m l fc cs rs mu mat sh]. simpl.
  assert (Hm : forall f x,
             SceneOptimizer.optimizeMeshMaterial f
               (SceneOptimizer.optimizeMeshMaterial f x)
             = SceneOptimizer.optimizeMeshMaterial f x).
  { intros f [p fg [t|] fs]; reflexivity. }
  destruct mat as [|mt|ms]; simpl; repeat split;
    rewrite ?Hm, ?(map_idempotent _ _ (Hm _)); reflexivity.
Qed.

(** * Further properties of the gameplay settings tab *)

Section StorageMore.

Import GameplayTab.

(** A key that no write names keeps its value. *)
Lemma lookup_writes_other (ws : list (string * string)) (m : gmap string string)
    (k : string) :
  k ∉ ws.*1 -> foldl put m ws !! k = m !! k.
Proof.
  revert m. induction ws as [|[k0 v0] ws IH]; intros m Hk; [reflexivity|].
  simpl in *. apply not_elem_of_cons in Hk as [Hne Hk].
  rewrite IH by exact Hk. unfold put. simpl. by apply lookup_insert_ne.
Qed.

(** With no key written twice, every write can be read back. *)
Lemma lookup_writes_in (ws : list (string * string)) (m : gmap string string)
    (k v : string) :
  NoDup ws.*1 -> (k, v) ∈ ws -> foldl put m ws !! k = Some v.
Proof.
  revert m. induction ws as [|[k0 v0] ws IH]; intros m Hnd Hin.
  - by apply elem_of_nil in Hin.
  - simpl in *. apply NoDup_cons in Hnd as [Hk0 Hnd].
    apply elem_of_cons in Hin as [Heq | Hin].
    + injection Heq as -> ->.
      rewrite lookup_writes_other by exact Hk0. apply lookup_insert_eq.
    + by apply IH.
Qed.

(** What a key named by some write reads as does not depend on the map the
    writes started from. *)
Lemma lookup_writes_base (ws : list (string * string))
    (m m' : gmap string string) (k : string) :
  k ∈ ws.*1 -> foldl put m ws !! k = foldl put m' ws !! k.
Proof.
  revert m m'. induction ws as [|[k0 v0] ws IH]; intros m m' Hk.
  - by apply elem_of_nil in Hk.
  - simpl in *. destruct (decide (k ∈ ws.*1)) as [Hin | Hout].
    + by apply IH.
    + apply elem_of_cons in Hk as [-> | Hin]; [|contradiction].
      rewrite !lookup_writes_other by exact Hout.
      unfold put. simpl. by rewrite !lookup_insert_eq.
Qed.

Lemma writes_twice (ws : list (string * string)) (m : gmap string string) :
  foldl put (foldl put m ws) ws = foldl put m ws.
Proof.
  apply map_eq. intros k. destruct (decide (k ∈ ws.*1)) as [Hin | Hout].
  - by apply lookup_writes_base.
  - by apply lookup_writes_other.
Qed.

Variable K : StorageKeys.

(** The storage [saveSettings] leaves is the storage it found with its
    writes applied in order. *)
Lemma localStorage_saveSettings (tab : Tab) (w : World) :
  localStorage (saveSettings K tab w)
  = foldl put (localStorage w) (saveSettings_writes K tab).
Proof.
  unfold saveSettings, saveSettings_writes.
  destruct tab as [d cs cz mm fps sp dbg lg]. cbv zeta. simpl.
  rewrite !foldl_app.
  assert (Hd : localStorage
                 (when_present d (fun value w =>
                    let difficulty := if String.eqb value "" then "basic" else value in
                    let w := setItem (DIFFICULTY K) difficulty w in
                    match game w with
                    | Some g =>
                        let w := set_game_difficulty difficulty w in
                        if has_enemyManager g then call (setDifficulty difficulty) w
                        else w
                    | None => w
                    end) w)
               = foldl put (localStorage w)
                   (from_option (fun value =>
                      [(DIFFICULTY K, if String.eqb value "" then "basic" else value)])
                      [] d)).
  { destruct d as [value|]; simpl; [|reflexivity].
    destruct (game w) as [g|]; simpl; [|reflexivity].
    destruct (has_enemyManager g); reflexivity. }
  rewrite <- Hd.
  destruct cs, cz, mm, fps, sp, dbg, lg; reflexivity.
Qed.

Lemma saveSettings_keys (tab : Tab) :
  (saveSettings_writes K tab).*1 `sublist_of` all_keys K.
Proof.
  unfold saveSettings_writes, all_keys.
  destruct tab as [[d|] [cs|] [cz|] [mm|] [fps|] [sp|] [dbg|] [lg|]]; simpl;
    repeat first [apply sublist_nil | apply sublist_skip | apply sublist_cons].
Qed.

(** With distinct keys, each value [saveSettings] writes is the value read
    afterwards. *)
Lemma getItem_saveSettings_written (tab : Tab) (w : World) (k v : string) :
  NoDup (all_keys K) ->
  (k, v) ∈ saveSettings_writes K tab ->
  getItem k (saveSettings K tab w) = Some v.
Proof.
  intros Hnd Hin. unfold getItem. rewrite localStorage_saveSettings.
  apply lookup_writes_in; [|exact Hin].
  exact (sublist_NoDup _ _ Hnd (saveSettings_keys tab)).
Qed.

Lemma game_saveSettings (tab : Tab) (w : World) :
  game (saveSettings K tab w)
  = match difficultySelect tab with
    | Some value =>
        option_map
          (fun g => mkGame (Some (or_basic (Some value))) (has_enemyManager g)
                      (has_performanceManager g) (has_hudManager g)
                      (has_showNotification g))
          (game w)
    | None => game w
    end.
Proof.
  unfold saveSettings.
  destruct tab as [d cs cz mm fps sp dbg lg]. cbv zeta. simpl.
  destruct cs, cz, mm, fps, sp, dbg, lg; simpl;
    (destruct d as [value|]; simpl; [|reflexivity];
     destruct (game w) as [g|] eqn:E; simpl; rewrite ?E; [|reflexivity];
     destruct (has_enemyManager g) eqn:E'; simpl; rewrite ?E; simpl;
     rewrite ?E'; reflexivity).
Qed.

Lemma calls_saveSettings (tab : Tab) (w : World) :
  calls (saveSettings K tab w)
  = (calls w
     ++ match difficultySelect tab, game w with
        | Some value, Some g =>
            if has_enemyManager g then [setDifficulty (or_basic (Some value))]
            else []
        | _, _ => []
        end)%list.
Proof.
  unfold saveSettings.
  destruct tab as [d cs cz mm fps sp dbg lg]. cbv zeta. simpl.
  destruct cs, cz, mm, fps, sp, dbg, lg; simpl;
    (destruct d as [value|]; simpl; [|by rewrite app_nil_r];
     destruct (game w) as [g|] eqn:E; simpl; [|by rewrite app_nil_r];
     destruct (has_enemyManager g); simpl; [reflexivity | by rewrite app_nil_r]).
Qed.

End StorageMore.

Section TabFacts.

Import GameplayTab.

Lemma stored_true_toString (key : string) (b : bool) (w : World) :
  getItem key w = Some (bool_toString b) -> stored_true key w = b.
Proof. unfold stored_true. intros ->. destruct b; reflexivity. Qed.

Lemma or_basic_nonempty (stored : option string) : or_basic stored <> "".
Proof.
  unfold or_basic. destruct stored as [s|]; [|discriminate].
  destruct (String.eqb s "") eqn:E; [discriminate|].
  by apply String.eqb_neq.
Qed.

Lemma select_assign_spec (options : list string) (v : string) :
  ((v ∈ options) /\ select_assign options v = v)
  \/ ((v ∉ options) /\ select_assign options v = "").
Proof.
  unfold select_assign. destruct (decide (v ∈ options)) as [Hin | Hout].
  - left. by rewrite bool_decide_eq_true_2.
  - right. by rewrite bool_decide_eq_false_2.
Qed.

End TabFacts.

(** Case analysis of a membership in an explicit list, dropping the cases
    that equate different constructors. *)
Ltac split_in H :=
  repeat (apply elem_of_cons in H; destruct H as [H | H];
          [try discriminate H |]);
  try (apply elem_of_nil in H; destruct H).

Ltac split_in_nil :=
  match goal with
  | H : _ ∈ [] |- _ => apply elem_of_nil in H; destruct H
  | |- _ ∉ [] => apply not_elem_of_nil
  end.

(** Distinctness of the keys of a concrete key table, by evaluation. *)
Ltac distinct_keys := apply (bool_decide_unpack _); vm_compute; exact I.

(** The checked state of every checkbox survives [saveSettings] and a
    reload: with distinct storage keys, what an initialiser reads back with
    [getItem(key) === 'true'] is the state that was saved. *)
Theorem saveSettings_checkbox_round_trip (K : GameplayTab.StorageKeys)
    (tab : GameplayTab.Tab) (w : GameplayTab.World) :
  NoDup (GameplayTab.all_keys K) ->
  let saved := GameplayTab.saveSettings K tab w in
  (forall b, GameplayTab.customSkillsCheckbox tab = Some b ->
     GameplayTab.stored_true (GameplayTab.CUSTOM_SKILLS K) saved = b)
  /\ (forall b, GameplayTab.minimalModeCheckbox tab = Some b ->
        GameplayTab.stored_true (GameplayTab.MINIMAL_MODE K) saved = b
        /\ GameplayTab.initial_minimal_checked K saved = b)
  /\ (forall b, GameplayTab.showPerformanceInfoCheckbox tab = Some b ->
        GameplayTab.stored_true (GameplayTab.SHOW_PERFORMANCE_INFO K) saved = b)
  /\ (forall b, GameplayTab.debugModeCheckbox tab = Some b ->
        GameplayTab.stored_true (GameplayTab.DEBUG_MODE K) saved = b)
  /\ (forall b, GameplayTab.logEnabledCheckbox tab = Some b ->
        GameplayTab.stored_true (GameplayTab.LOG_ENABLED K) saved = b).
Proof.
  intros Hnd. cbv zeta.
  assert (Hread : forall key b,
            (key, GameplayTab.bool_toString b)
              ∈ GameplayTab.saveSettings_writes K tab ->
            GameplayTab.stored_true key (GameplayTab.saveSettings K tab w) = b).
  { intros key b Hin.
    by apply stored_true_toString, getItem_saveSettings_written. }
  split; [|split; [|split; [|split]]]; intros b Hb;
    [| assert (GameplayTab.stored_true (GameplayTab.MINIMAL_MODE K)
                 (GameplayTab.saveSettings K tab w) = b);
       [|split; [assumption | assumption]] | | |];
    apply Hread; unfold GameplayTab.saveSettings_writes; rewrite Hb; simpl;
    set_solver.
Qed.

Lemma saveSettings_checkbox_round_trip_witness :
  NoDup (GameplayTab.all_keys GameplayTab.sample_keys)
  /\ GameplayTab.stored_true "debugMode"
       (GameplayTab.saveSettings GameplayTab.sample_keys sample_tab sample_world)
     = true.
Proof.
  assert (Hnd : NoDup (GameplayTab.all_keys GameplayTab.sample_keys)).
  { distinct_keys. }
  split; [exact Hnd|].
  destruct (saveSettings_checkbox_round_trip GameplayTab.sample_keys
              sample_tab sample_world Hnd) as (_ & _ & _ & H & _).
  exact (H true eq_refl).
Defined.

(** The two keys that persist the performance mode never disagree: after
    the change listener, and after [saveSettings] when the checkbox exists,
    the stored quality level is ['minimal'] exactly when the stored
    minimal-mode flag is ['true'] and ['ultra'] exactly when it is
    ['false'] (the storage keys being distinct). *)
Theorem mode_keys_agree_after_write (K : GameplayTab.StorageKeys)
    (isMinimal : bool) (tab : GameplayTab.Tab) (w : GameplayTab.World) :
  NoDup (GameplayTab.all_keys K) ->
  GameplayTab.minimalModeCheckbox tab = Some isMinimal ->
  mode_keys_agree K (GameplayTab.onMinimalModeChange K isMinimal w)
  /\ mode_keys_agree K (GameplayTab.saveSettings K tab w).
Proof.
  intros Hnd Hbox.
  assert (Hne : GameplayTab.MINIMAL_MODE K <> GameplayTab.QUALITY_LEVEL K).
  { intros E.
    assert (3 = 4) as H; [|discriminate H].
    apply (NoDup_lookup (GameplayTab.all_keys K) 3 4
             (GameplayTab.MINIMAL_MODE K) Hnd); [reflexivity|].
    simpl. by rewrite E. }
  assert (Hagree : forall w',
            GameplayTab.getItem (GameplayTab.MINIMAL_MODE K) w'
              = Some (GameplayTab.bool_toString isMinimal) ->
            GameplayTab.getItem (GameplayTab.QUALITY_LEVEL K) w'
              = Some (GameplayTab.quality_of isMinimal) ->
            mode_keys_agree K w').
  { intros w' HM HQ. unfold mode_keys_agree. rewrite HM, HQ.
    destruct isMinimal; simpl; repeat split; intros H; congruence. }
  split; apply Hagree.
  - unfold GameplayTab.onMinimalModeChange. cbv zeta.
    repeat match goal with
           | |- context [match ?x with _ => _ end] => destruct x
           end;
      rewrite ?getItem_call;
      (rewrite getItem_setItem_other by (intros E; apply Hne; symmetry; exact E));
      apply getItem_setItem_same.
  - unfold GameplayTab.onMinimalModeChange. cbv zeta.
    repeat match goal with
           | |- context [match ?x with _ => _ end] => destruct x
           end;
      rewrite ?getItem_call; apply getItem_setItem_same.
  - apply getItem_saveSettings_written; [exact Hnd|].
    unfold GameplayTab.saveSettings_writes. rewrite Hbox. simpl. set_solver.
  - apply getItem_saveSettings_written; [exact Hnd|].
    unfold GameplayTab.saveSettings_writes. rewrite Hbox. simpl. set_solver.
Qed.

Lemma mode_keys_agree_after_write_witness :
  NoDup (GameplayTab.all_keys GameplayTab.sample_keys)
  /\ mode_keys_agree GameplayTab.sample_keys
       (GameplayTab.onMinimalModeChange GameplayTab.sample_keys true sample_world)
  /\ mode_keys_agree GameplayTab.sample_keys
       (GameplayTab.saveSettings GameplayTab.sample_keys sample_tab sample_world).
Proof.
  assert (Hnd : NoDup (GameplayTab.all_keys GameplayTab.sample_keys))
    by distinct_keys.
  split; [exact Hnd|].
  exact (mode_keys_agree_after_write GameplayTab.sample_keys true sample_tab
           sample_world Hnd eq_refl).
Defined.

(** [saveSettings] never persists an empty difficulty: with the select
    present it stores the selected value, or ['basic'] when nothing is
    selected, and it hands that same value to the game object and, when
    there is one, to the enemy manager. *)
Theorem saveSettings_difficulty (K : GameplayTab.StorageKeys)
    (tab : GameplayTab.Tab) (w : GameplayTab.World) (value : string) :
  NoDup (GameplayTab.all_keys K) ->
  GameplayTab.difficultySelect tab = Some value ->
  let saved := GameplayTab.saveSettings K tab w in
  let stored := or_basic (Some value) in
  GameplayTab.getItem (GameplayTab.DIFFICULTY K) saved = Some stored
  /\ stored <> ""
  /\ (value <> "" -> stored = value)
  /\ (value = "" -> stored = "basic")
  /\ GameplayTab.difficulty <$> GameplayTab.game saved
     = (fun _ => Some stored) <$> GameplayTab.game w
  /\ (forall d, GameplayTab.setDifficulty d ∈ GameplayTab.calls saved ->
        GameplayTab.setDifficulty d ∈ GameplayTab.calls w \/ d = stored).
Proof.
  intros Hnd Hsel. cbv zeta.
  split; [|split; [|split; [|split; [|split]]]].
  - apply getItem_saveSettings_written; [exact Hnd|].
    unfold GameplayTab.saveSettings_writes. rewrite Hsel. simpl. set_solver.
  - apply or_basic_nonempty.
  - intros Hne. simpl. apply String.eqb_neq in Hne. by rewrite Hne.
  - intros ->. reflexivity.
  - rewrite game_saveSettings, Hsel. by destruct (GameplayTab.game w).
  - intros d. rewrite calls_saveSettings, Hsel, elem_of_app.
    intros [H | H]; [by left | right].
    destruct (GameplayTab.game w) as [g|]; [|by apply elem_of_nil in H].
    destruct (GameplayTab.has_enemyManager g); [|by apply elem_of_nil in H].
    apply list_elem_of_singleton in H. by injection H.
Qed.

Lemma saveSettings_difficulty_witness :
  NoDup (GameplayTab.all_keys GameplayTab.sample_keys)
  /\ GameplayTab.getItem "difficulty"
       (GameplayTab.saveSettings GameplayTab.sample_keys sample_tab sample_world)
     = Some "basic".
Proof.
  assert (Hnd : NoDup (GameplayTab.all_keys GameplayTab.sample_keys))
    by distinct_keys.
  split; [exact Hnd|].
  exact (proj1 (saveSettings_difficulty GameplayTab.sample_keys sample_tab
                  sample_world "" Hnd eq_refl)).
Defined.

(** Saving twice is saving once, as far as the storage and the game object
    go, whatever the key table; and [saveSettings] leaves every key outside
    its key table as it was. *)
Theorem saveSettings_idempotent (K : GameplayTab.StorageKeys)
    (tab : GameplayTab.Tab) (w : GameplayTab.World) :
  let once := GameplayTab.saveSettings K tab w in
  let twice := GameplayTab.saveSettings K tab once in
  GameplayTab.localStorage twice = GameplayTab.localStorage once
  /\ GameplayTab.game twice = GameplayTab.game once
  /\ (forall key, key ∉ GameplayTab.all_keys K ->
        GameplayTab.getItem key once = GameplayTab.getItem key w).
Proof.
  cbv zeta. split; [|split].
  - rewrite !localStorage_saveSettings. apply writes_twice.
  - rewrite !game_saveSettings.
    destruct (GameplayTab.difficultySelect tab); [|reflexivity].
    by destruct (GameplayTab.game w).
  - intros key Hkey. unfold GameplayTab.getItem.
    rewrite localStorage_saveSettings. apply lookup_writes_other.
    intros Hin. apply Hkey.
    exact (elem_of_sublist _ _ _ Hin (saveSettings_keys K tab)).
Qed.

(** [resetToDefaults] persists the defaults of every element that exists
    (distinct storage keys assumed): difficulty ['basic'], every checkbox
    ['false'], quality level ['ultra'], camera zoom what the slider keeps
    of 20.  The frame rate is reset to 60 only when the element that
    displays it exists too; without it the slider's current value is
    persisted again. *)
Theorem resetToDefaults_stores_defaults (K : GameplayTab.StorageKeys)
    (options : list string) (zoomRange fpsRange : string -> string)
    (tab : GameplayTab.Tab) (displays : GameplayTab.Displays)
    (w : GameplayTab.World) :
  NoDup (GameplayTab.all_keys K) ->
  let after :=
    (GameplayTab.resetToDefaults K options zoomRange fpsRange tab displays w).2 in
  let stored key := GameplayTab.getItem key after in
  (is_Some (GameplayTab.difficultySelect tab) ->
     stored (GameplayTab.DIFFICULTY K) = Some "basic")
  /\ (is_Some (GameplayTab.customSkillsCheckbox tab) ->
        stored (GameplayTab.CUSTOM_SKILLS K) = Some "false")
  /\ (is_Some (GameplayTab.cameraZoomSlider tab) ->
        stored (GameplayTab.CAMERA_ZOOM K) = Some (zoomRange "20"))
  /\ (is_Some (GameplayTab.minimalModeCheckbox tab) ->
        stored (GameplayTab.MINIMAL_MODE K) = Some "false"
        /\ stored (GameplayTab.QUALITY_LEVEL K) = Some "ultra")
  /\ (forall value, GameplayTab.fpsSlider tab = Some value ->
        stored (GameplayTab.TARGET_FPS K)
        = Some (if GameplayTab.is_Some_b (GameplayTab.fpsValue displays)
                then fpsRange "60" else value))
  /\ (is_Some (GameplayTab.showPerformanceInfoCheckbox tab) ->
        stored (GameplayTab.SHOW_PERFORMANCE_INFO K) = Some "false")
  /\ (is_Some (GameplayTab.debugModeCheckbox tab) ->
        stored (GameplayTab.DEBUG_MODE K) = Some "false")
  /\ (is_Some (GameplayTab.logEnabledCheckbox tab) ->
        stored (GameplayTab.LOG_ENABLED K) = Some "false").
Proof.
  intros Hnd. cbv zeta. unfold GameplayTab.resetToDefaults. cbv zeta.
  cbn [snd].
  assert (Hbasic :
            (if String.eqb (GameplayTab.select_assign options "basic") ""
             then "basic" else GameplayTab.select_assign options "basic")
            = "basic").
  { destruct (select_assign_spec options "basic") as [[_ ->] | [_ ->]];
      reflexivity. }
  split; [|split; [|split; [|split; [|split; [|split; [|split]]]]]].
  - intros [v Hv]. apply getItem_saveSettings_written; [exact Hnd|].
    unfold GameplayTab.saveSettings_writes. simpl. rewrite Hv. simpl.
    rewrite Hbasic. set_solver.
  - intros [v Hv]. apply getItem_saveSettings_written; [exact Hnd|].
    unfold GameplayTab.saveSettings_writes. simpl. rewrite Hv. simpl.
    set_solver.
  - intros [v Hv]. apply getItem_saveSettings_written; [exact Hnd|].
    unfold GameplayTab.saveSettings_writes. simpl. rewrite Hv. simpl.
    set_solver.
  - intros [v Hv].
    split; (apply getItem_saveSettings_written; [exact Hnd|]);
      unfold GameplayTab.saveSettings_writes; simpl; rewrite Hv; simpl;
      set_solver.
  - intros value Hv. apply getItem_saveSettings_written; [exact Hnd|].
    unfold GameplayTab.saveSettings_writes. cbn [GameplayTab.fpsSlider].
    rewrite !Hv.
    destruct (GameplayTab.fpsValue displays); simpl; set_solver.
  - intros [v Hv]. apply getItem_saveSettings_written; [exact Hnd|].
    unfold GameplayTab.saveSettings_writes. simpl. rewrite Hv. simpl.
    set_solver.
  - intros [v Hv]. apply getItem_saveSettings_written; [exact Hnd|].
    unfold GameplayTab.saveSettings_writes. simpl. rewrite Hv. simpl.
    set_solver.
  - intros [v Hv]. apply getItem_saveSettings_written; [exact Hnd|].
    unfold GameplayTab.saveSettings_writes. simpl. rewrite Hv. simpl.
    set_solver.
Qed.

Lemma resetToDefaults_stores_defaults_witness :
  NoDup (GameplayTab.all_keys GameplayTab.sample_keys)
  /\ GameplayTab.getItem "targetFps"
       (GameplayTab.resetToDefaults GameplayTab.sample_keys ["basic"; "hard"]
          (fun v => v) (fun v => v) sample_tab
          (GameplayTab.mkDisplays (Some "35") None) sample_world).2
     = Some "30".
Proof.
  assert (Hnd : NoDup (GameplayTab.all_keys GameplayTab.sample_keys))
    by distinct_keys.
  split; [exact Hnd|].
  destruct (resetToDefaults_stores_defaults GameplayTab.sample_keys
              ["basic"; "hard"] (fun v => v) (fun v => v) sample_tab
              (GameplayTab.mkDisplays (Some "35") None) sample_world Hnd)
    as (_ & _ & _ & _ & H & _).
  exact (H "30" eq_refl).
Defined.

(** The change listener of the minimal-mode checkbox leaves the game object
    alone and only appends calls: the quality level it passes to
    [applyQualitySettings] is the one it has just stored, and it shows a
    notification, for 3000 ms, only right after such a call. *)
Theorem onMinimalModeChange_calls (K : GameplayTab.StorageKeys)
    (isMinimal : bool) (w : GameplayTab.World) :
  let after := GameplayTab.onMinimalModeChange K isMinimal w in
  GameplayTab.game after = GameplayTab.game w
  /\ exists new : list GameplayTab.Call,
       GameplayTab.calls after = (GameplayTab.calls w ++ new)%list
       /\ (forall quality, GameplayTab.applyQualitySettings quality ∈ new ->
             GameplayTab.getItem (GameplayTab.QUALITY_LEVEL K) after
             = Some quality)
       /\ (forall message duration,
             GameplayTab.showNotification message duration ∈ new ->
             duration = 3000%Z
             /\ new = [GameplayTab.applyQualitySettings
                         (GameplayTab.quality_of isMinimal);
                       GameplayTab.showNotification message duration])
       /\ (forall d, GameplayTab.setDifficulty d ∉ new).
Proof.
  cbv zeta. unfold GameplayTab.onMinimalModeChange. cbv zeta.
  change (GameplayTab.game
            (GameplayTab.setItem (GameplayTab.QUALITY_LEVEL K)
               (GameplayTab.quality_of isMinimal)
               (GameplayTab.setItem (GameplayTab.MINIMAL_MODE K)
                  (GameplayTab.bool_toString isMinimal) w)))
    with (GameplayTab.game w).
  destruct (GameplayTab.game w) as [g|] eqn:Eg.
  - destruct (GameplayTab.has_performanceManager g);
      [destruct (GameplayTab.has_hudManager g && GameplayTab.has_showNotification g)|];
      (split; [exact Eg|]).
    + eexists [_; _]. split; [simpl; by rewrite <- app_assoc|].
      split; [|split].
      * intros q Hq. rewrite !getItem_call, getItem_setItem_same.
        split_in Hq. by injection Hq as ->.
      * intros m d Hm. split_in Hm. injection Hm as -> ->.
        split; reflexivity.
      * intros d Hd. split_in Hd.
    + eexists [_]. split; [reflexivity|]. split; [|split].
      * intros q Hq. rewrite !getItem_call, getItem_setItem_same.
        split_in Hq. by injection Hq as ->.
      * intros m d Hm. split_in Hm.
      * intros d Hd. split_in Hd.
    + exists []. split; [simpl; by rewrite app_nil_r|].
      split; [|split]; intros; intros; split_in_nil.
  - split; [exact Eg|]. exists []. split; [simpl; by rewrite app_nil_r|].
    split; [|split]; intros; split_in_nil.
Qed.

(** When ['basic'] is one of the difficulty levels, initialising the
    difficulty select always ends with a level selected, and it is the
    stored difficulty (['basic'] when none is stored): a stored difficulty
    that is a level is kept and the storage left alone, any other one is
    overwritten with ['basic']. *)
Theorem initializeDifficultySelect_valid (K : GameplayTab.StorageKeys)
    (levels : list string) (w : GameplayTab.World) :
  "basic" ∈ levels ->
  let result := GameplayTab.initializeDifficultySelect K levels w in
  let value := result.1.1 in
  let after := result.2 in
  let wanted := or_basic (GameplayTab.getItem (GameplayTab.DIFFICULTY K) w) in
  value ∈ levels
  /\ value <> ""
  /\ value = or_basic (GameplayTab.getItem (GameplayTab.DIFFICULTY K) after)
  /\ (wanted ∈ levels -> value = wanted /\ after = w)
  /\ (wanted ∉ levels ->
        value = "basic"
        /\ after = GameplayTab.setItem (GameplayTab.DIFFICULTY K) "basic" w).
Proof.
  intros Hbasic. cbv zeta. unfold GameplayTab.initializeDifficultySelect.
  cbv zeta.
  change (match GameplayTab.getItem (GameplayTab.DIFFICULTY K) w with
          | Some s => if String.eqb s "" then "basic" else s
          | None => "basic"
          end)
    with (or_basic (GameplayTab.getItem (GameplayTab.DIFFICULTY K) w)).
  set (wanted := or_basic (GameplayTab.getItem (GameplayTab.DIFFICULTY K) w)).
  assert (Hwanted : String.eqb wanted "" = false).
  { apply String.eqb_neq, or_basic_nonempty. }
  destruct (select_assign_spec levels wanted) as [[Hin ->] | [Hout ->]].
  - rewrite Hwanted. simpl.
    split; [exact Hin|]. split; [by apply String.eqb_neq|].
    split; [reflexivity|]. split.
    + intros _. split; reflexivity.
    + intros Hout. contradiction.
  - simpl.
    destruct (select_assign_spec levels "basic") as [[_ ->] | [Hno _]];
      [|contradiction].
    split; [exact Hbasic|]. split; [discriminate|].
    split; [by rewrite getItem_setItem_same|]. split.
    + intros Hin. contradiction.
    + intros _. split; reflexivity.
Qed.

Lemma initializeDifficultySelect_valid_witness :
  "basic" ∈ ["basic"; "hard"]
  /\ (GameplayTab.initializeDifficultySelect GameplayTab.sample_keys
        ["basic"; "hard"] sample_world).1.1 = "basic"
  /\ GameplayTab.getItem "difficulty"
       (GameplayTab.initializeDifficultySelect GameplayTab.sample_keys
          ["basic"; "hard"] sample_world).2
     = Some "basic".
Proof.
  assert (Hin : "basic" ∈ ["basic"; "hard"]) by (apply list_elem_of_here).
  split; [exact Hin|].
  destruct (initializeDifficultySelect_valid GameplayTab.sample_keys
              ["basic"; "hard"] sample_world Hin) as (_ & _ & _ & _ & H).
  destruct H as [H1 H2].
  - apply (bool_decide_unpack _). vm_compute. exact I.
  - split; [exact H1|]. rewrite H2. apply getItem_setItem_same.
Defined.

(** * Properties of the virtual joystick *)

Section Joystick.

Import VirtualJoystickUI.

Lemma find_first_some (id : Z) (l : list Touch) (t : Touch) :
  List.find (fun t => Z.eqb (identifier t) id) l = Some t ->
  t ∈ l /\ identifier t = id.
Proof.
  induction l as [|t0 l IH]; simpl; [discriminate|].
  destruct (Z.eqb (identifier t0) id) eqn:E.
  - intros [= <-]. split; [apply list_elem_of_here | by apply Z.eqb_eq].
  - intros H. destruct (IH H) as [Hin Hid].
    split; [by apply list_elem_of_further | exact Hid].
Qed.

Lemma find_first_none (id : Z) (l : list Touch) :
  List.find (fun t => Z.eqb (identifier t) id) l = None <->
  Forall (fun t => identifier t <> id) l.
Proof.
  induction l as [|t0 l IH]; simpl.
  - split; [constructor | reflexivity].
  - destruct (Z.eqb (identifier t0) id) eqn:E.
    + split; [discriminate|]. intros H. apply Forall_cons_1 in H as [H _].
      apply Z.eqb_eq in E. contradiction.
    + rewrite IH. apply Z.eqb_neq in E. split.
      * intros H. by constructor.
      * intros H. by apply Forall_cons_1 in H as [_ H].
Qed.

Lemma existsb_find (id : Z) (l : list Touch) :
  List.existsb (fun t => Z.eqb (identifier t) id) l = true <->
  is_Some (List.find (fun t => Z.eqb (identifier t) id) l).
Proof.
  induction l as [|t0 l IH]; simpl.
  - split; [discriminate | intros [? H]; discriminate H].
  - destruct (Z.eqb (identifier t0) id); simpl; [|exact IH].
    split; [intros _; by eexists | reflexivity].
Qed.

(** A move keeps the activity and the tracked finger, and does nothing at
    all to a joystick that is not active. *)
Lemma handleJoystickMove_active (A : Arithmetic) (rect : DOMRect)
    (clientX clientY : JSNumber) (c : Component) :
  active (joystickState (handleJoystickMove A rect clientX clientY c))
  = active (joystickState c)
  /\ touchId (joystickState (handleJoystickMove A rect clientX clientY c))
     = touchId (joystickState c)
  /\ (active (joystickState c) = false ->
      handleJoystickMove A rect clientX clientY c = c).
Proof.
  unfold handleJoystickMove. destruct (active (joystickState c)) eqn:E; simpl.
  - repeat split; try assumption. discriminate.
  - repeat split; assumption.
Qed.

Lemma handleJoystickStart_active (A : Arithmetic) (rect : DOMRect)
    (clientX clientY : JSNumber) (touch : option Z) (c : Component) :
  active (joystickState (handleJoystickStart A rect clientX clientY touch c))
  = true
  /\ touchId (joystickState (handleJoystickStart A rect clientX clientY touch c))
     = touch.
Proof.
  unfold handleJoystickStart. cbv zeta.
  match goal with
  | |- context [handleJoystickMove A rect clientX clientY ?s] =>
      destruct (handleJoystickMove_active A rect clientX clientY s) as (-> & -> & _)
  end.
  split; reflexivity.
Qed.

Lemma find_filter (id : Z) (l : list Touch) :
  List.find (fun t => Z.eqb (identifier t) id)
    (List.filter (fun t => Z.eqb (identifier t) id) l)
  = List.find (fun t => Z.eqb (identifier t) id) l.
Proof.
  induction l as [|t0 l IH]; simpl; [reflexivity|].
  destruct (Z.eqb (identifier t0) id) eqn:E; simpl; [by rewrite E | exact IH].
Qed.

Lemma find_nonempty (id : Z) (l : list Touch) :
  is_Some (List.find (fun t => Z.eqb (identifier t) id) l) ->
  Nat.ltb 0 (length l) = true
  /\ Nat.ltb 0 (length (List.filter (fun t => Z.eqb (identifier t) id) l)) = true.
Proof.
  induction l as [|t0 l IH]; simpl; [intros [? H]; discriminate H|].
  destruct (Z.eqb (identifier t0) id); simpl; [by split|].
  intros H. split; [reflexivity | by apply IH].
Qed.

Lemma ended_iff_found (st : JoystickState) (l : list Touch) :
  isJoystickTouchEnded st l = true <-> is_Some (findJoystickTouch st l).
Proof.
  unfold isJoystickTouchEnded, findJoystickTouch.
  destruct (touchId st) as [id|].
  - apply existsb_find.
  - destruct l as [|t l]; simpl.
    + split; [discriminate | intros [? H]; discriminate H].
    + split; [intros _; by eexists | reflexivity].
Qed.

Lemma dispatch_at_rest (A : Arithmetic) (rect : DOMRect) (event : Event)
    (c : Component) :
  at_rest c -> at_rest (dispatch A rect event c).
Proof.
  intros Hc.
  assert (Hstart : forall x y touch ml,
            at_rest (mkComponent
                       (joystickState (handleJoystickStart A rect x y touch c))
                       (handleTransform (handleJoystickStart A rect x y touch c))
                       ml)).
  { intros x y touch ml Hoff. cbn [joystickState] in Hoff.
    destruct (handleJoystickStart_active A rect x y touch c) as [Hon _].
    rewrite Hon in Hoff. discriminate Hoff. }
  assert (Hmove : forall x y, at_rest (handleJoystickMove A rect x y c)).
  { intros x y Hoff.
    destruct (handleJoystickMove_active A rect x y c) as (Ha & _ & Hsame).
    rewrite Ha in Hoff. rewrite (Hsame Hoff). by apply Hc. }
  assert (Hend : forall ml,
            at_rest (mkComponent (joystickState (handleJoystickEnd c))
                       (handleTransform (handleJoystickEnd c)) ml)).
  { intros ml _. split; reflexivity. }
  destruct event as [l | x y | l | l | l | x y |]; simpl.
  - destruct l as [|t l]; [exact Hc|].
    destruct (handleJoystickStart A rect (clientX t) (clientY t)
                (Some (identifier t)) c) as [st tr ml] eqn:E.
    specialize (Hstart (clientX t) (clientY t) (Some (identifier t)) ml).
    by rewrite E in Hstart.
  - apply Hstart.
  - destruct (active (joystickState c) && Nat.ltb 0 (length l)); [|exact Hc].
    destruct (findJoystickTouch (joystickState c) l); [apply Hmove | exact Hc].
  - destruct (isJoystickTouchEnded (joystickState c) l); [|exact Hc].
    apply (Hend (mouseListeners c)).
  - destruct (isJoystickTouchEnded (joystickState c) l); [|exact Hc].
    apply (Hend (mouseListeners c)).
  - destruct (mouseListeners c); [|exact Hc].
    destruct (active (joystickState c)); [apply Hmove | exact Hc].
  - destruct (mouseListeners c); [apply Hend | exact Hc].
Qed.

End Joystick.

(** [findJoystickTouch] returns a touch of the list it is given; while a
    finger is tracked it returns a touch of that finger and of no other,
    and null only when that finger is not in the list; while none is
    tracked it returns null only for an empty list. *)
Theorem findJoystickTouch_tracked (st : VirtualJoystickUI.JoystickState)
    (touchList : list VirtualJoystickUI.Touch) :
  match VirtualJoystickUI.findJoystickTouch st touchList with
  | Some touch =>
      touch ∈ touchList
      /\ (forall id, VirtualJoystickUI.touchId st = Some id ->
            VirtualJoystickUI.identifier touch = id)
  | None =>
      match VirtualJoystickUI.touchId st with
      | Some id =>
          Forall (fun t => VirtualJoystickUI.identifier t <> id) touchList
      | None => touchList = []
      end
  end.
Proof.
  unfold VirtualJoystickUI.findJoystickTouch.
  destruct (VirtualJoystickUI.touchId st) as [id|].
  - destruct (List.find _ touchList) as [t|] eqn:E.
    + destruct (find_first_some id touchList t E) as [Hin Hid].
      split; [exact Hin|]. by intros ? [= <-].
    + by apply find_first_none.
  - destruct touchList as [|t l]; simpl; [reflexivity|].
    split; [apply list_elem_of_here | discriminate].
Qed.

(** The two lookups agree: [isJoystickTouchEnded] says yes on a touch list
    exactly when [findJoystickTouch] finds a touch in it. *)
Theorem isJoystickTouchEnded_iff_found (st : VirtualJoystickUI.JoystickState)
    (touchList : list VirtualJoystickUI.Touch) :
  VirtualJoystickUI.isJoystickTouchEnded st touchList = true
  <-> is_Some (VirtualJoystickUI.findJoystickTouch st touchList).
Proof. apply ended_iff_found. Qed.

(** While a finger is tracked, touch events of other fingers only (a skill
    button held or released meanwhile) change nothing: neither a move, nor
    an end, nor a cancel of theirs reaches the joystick. *)
Theorem other_fingers_ignored (A : VirtualJoystickUI.Arithmetic)
    (rect : VirtualJoystickUI.DOMRect) (c : VirtualJoystickUI.Component)
    (id : Z) (touches : list VirtualJoystickUI.Touch) :
  VirtualJoystickUI.touchId (VirtualJoystickUI.joystickState c) = Some id ->
  Forall (fun t => VirtualJoystickUI.identifier t <> id) touches ->
  VirtualJoystickUI.dispatch A rect (VirtualJoystickUI.touchmove touches) c = c
  /\ VirtualJoystickUI.dispatch A rect (VirtualJoystickUI.touchend touches) c = c
  /\ VirtualJoystickUI.dispatch A rect (VirtualJoystickUI.touchcancel touches) c
     = c.
Proof.
  intros Hid Hother.
  assert (Hfind : VirtualJoystickUI.findJoystickTouch
                    (VirtualJoystickUI.joystickState c) touches = None).
  { unfold VirtualJoystickUI.findJoystickTouch. rewrite Hid.
    by apply find_first_none. }
  assert (Hend : VirtualJoystickUI.isJoystickTouchEnded
                   (VirtualJoystickUI.joystickState c) touches = false).
  { destruct (VirtualJoystickUI.isJoystickTouchEnded _ touches) eqn:E;
      [|reflexivity].
    apply ended_iff_found in E. rewrite Hfind in E.
    destruct E as [? E]. discriminate E. }
  simpl. rewrite Hfind, Hend.
  split; [|split; reflexivity].
  by destruct (_ && _).
Qed.

Lemma other_fingers_ignored_witness :
  let c := VirtualJoystickUI.dispatch VirtualJoystickUI.sample_arithmetic
             sample_rect
             (VirtualJoystickUI.touchstart [thumb 90 350])
             VirtualJoystickUI.initial in
  VirtualJoystickUI.touchId (VirtualJoystickUI.joystickState c) = Some 7%Z
  /\ VirtualJoystickUI.dispatch VirtualJoystickUI.sample_arithmetic sample_rect
       (VirtualJoystickUI.touchend [skill_finger]) c = c.
Proof.
  cbv zeta. split; [reflexivity|].
  refine (proj1 (proj2 (other_fingers_ignored
            VirtualJoystickUI.sample_arithmetic sample_rect _ 7
            [skill_finger] _ _))).
  - reflexivity.
  - repeat constructor. discriminate.
Defined.

(** While a finger is tracked, a touch move is the move of that finger
    alone: the other touches in the event's list make no difference. *)
Theorem touchmove_follows_tracked (A : VirtualJoystickUI.Arithmetic)
    (rect : VirtualJoystickUI.DOMRect) (c : VirtualJoystickUI.Component)
    (id : Z) (touches : list VirtualJoystickUI.Touch) :
  VirtualJoystickUI.touchId (VirtualJoystickUI.joystickState c) = Some id ->
  VirtualJoystickUI.dispatch A rect (VirtualJoystickUI.touchmove touches) c
  = VirtualJoystickUI.dispatch A rect
      (VirtualJoystickUI.touchmove
         (List.filter
            (fun t => Z.eqb (VirtualJoystickUI.identifier t) id) touches))
      c.
Proof.
  intros Hid. simpl. unfold VirtualJoystickUI.findJoystickTouch.
  rewrite Hid, find_filter.
  destruct (VirtualJoystickUI.active (VirtualJoystickUI.joystickState c));
    simpl; [|reflexivity].
  destruct (List.find _ touches) as [t|] eqn:E.
  - destruct (find_nonempty id touches) as [-> ->]; [|reflexivity].
    rewrite E. by eexists.
  - by destruct (Nat.ltb 0 _), (Nat.ltb 0 _).
Qed.

Lemma touchmove_follows_tracked_witness :
  let c := VirtualJoystickUI.dispatch VirtualJoystickUI.sample_arithmetic
             sample_rect
             (VirtualJoystickUI.touchstart [thumb 90 350])
             VirtualJoystickUI.initial in
  VirtualJoystickUI.touchId (VirtualJoystickUI.joystickState c) = Some 7%Z
  /\ VirtualJoystickUI.dispatch VirtualJoystickUI.sample_arithmetic sample_rect
       (VirtualJoystickUI.touchmove [skill_finger; thumb 60 340]) c
     = VirtualJoystickUI.dispatch VirtualJoystickUI.sample_arithmetic sample_rect
         (VirtualJoystickUI.touchmove [thumb 60 340]) c.
Proof.
  cbv zeta. split; [reflexivity|].
  apply (touchmove_follows_tracked VirtualJoystickUI.sample_arithmetic
           sample_rect _ 7 [skill_finger; thumb 60 340]).
  reflexivity.
Defined.

(** Whatever events arrive, in whatever order and whatever the arithmetic
    computes, a joystick that is not active tracks no finger and reports
    the direction (0, 0): a released joystick never keeps steering. *)
Theorem released_joystick_at_rest (A : VirtualJoystickUI.Arithmetic)
    (events : list (VirtualJoystickUI.DOMRect * VirtualJoystickUI.Event)) :
  at_rest (VirtualJoystickUI.run A events VirtualJoystickUI.initial).
Proof.
  unfold VirtualJoystickUI.run.
  assert (H0 : at_rest VirtualJoystickUI.initial) by (intros _; by split).
  revert H0. generalize VirtualJoystickUI.initial as c.
  induction events as [|[rect event] events IH]; intros c Hc; [exact Hc|].
  simpl. apply IH. by apply dispatch_at_rest.
Qed.

(** A press exactly on the centre of the container divides 0 by 0: under
    the zero laws of double arithmetic, when the pointer's coordinates
    minus the centre's give 0, [handleJoystickStart] leaves an active
    joystick whose offsets and direction are all NaN. *)
Theorem press_on_centre_gives_NaN (A : VirtualJoystickUI.Arithmetic)
    (rect : VirtualJoystickUI.DOMRect) (clientX clientY : JSNumber)
    (touch : option Z) (c : VirtualJoystickUI.Component) :
  VirtualJoystickUI.zero_laws A ->
  VirtualJoystickUI.sub A clientX
    (VirtualJoystickUI.add A (VirtualJoystickUI.left rect)
       (VirtualJoystickUI.div A (VirtualJoystickUI.width rect) (num 2)))
  = num 0 ->
  VirtualJoystickUI.sub A clientY
    (VirtualJoystickUI.add A (VirtualJoystickUI.top rect)
       (VirtualJoystickUI.div A (VirtualJoystickUI.height rect) (num 2)))
  = num 0 ->
  let pressed :=
    VirtualJoystickUI.handleJoystickStart A rect clientX clientY touch c in
  VirtualJoystickUI.active (VirtualJoystickUI.joystickState pressed) = true
  /\ VirtualJoystickUI.getJoystickDirection pressed
     = VirtualJoystickUI.mkDirection NaN NaN
  /\ VirtualJoystickUI.currentX (VirtualJoystickUI.joystickState pressed) = NaN
  /\ VirtualJoystickUI.currentY (VirtualJoystickUI.joystickState pressed) = NaN.
Proof.
  intros (Hmul & Hadd & Hsqrt & Hdiv & HmulN & HdivN) Hx Hy. cbv zeta.
  unfold VirtualJoystickUI.handleJoystickStart,
    VirtualJoystickUI.handleJoystickMove,
    VirtualJoystickUI.getJoystickDirection.
  cbn -[num]. rewrite Hx, Hy, Hmul, Hadd, Hsqrt, Hdiv, !HmulN, !HdivN.
  repeat split; reflexivity.
Qed.

Lemma press_on_centre_gives_NaN_witness :
  VirtualJoystickUI.zero_laws VirtualJoystickUI.sample_arithmetic
  /\ VirtualJoystickUI.getJoystickDirection
       (VirtualJoystickUI.handleJoystickStart
          VirtualJoystickUI.sample_arithmetic sample_rect (num 70) (num 350)
          (Some 7%Z) VirtualJoystickUI.initial)
     = VirtualJoystickUI.mkDirection NaN NaN.
Proof.
  assert (Hz : VirtualJoystickUI.zero_laws VirtualJoystickUI.sample_arithmetic).
  { repeat split; try reflexivity; intros [q| | |]; reflexivity. }
  split; [exact Hz|].
  exact (proj1 (proj2 (press_on_centre_gives_NaN
           VirtualJoystickUI.sample_arithmetic sample_rect (num 70) (num 350)
           (Some 7%Z) VirtualJoystickUI.initial Hz eq_refl eq_refl))).
Defined.

(** Minimal mode lowers every number of the profile: for a truthy and a
    falsy argument, each of the twelve tunables of the first profile is
    strictly below the same tunable of the second. *)
Theorem minimal_lowers_every_tunable (truthy falsy : JSValue) :
  ToBoolean truthy = true ->
  ToBoolean falsy = false ->
  Forall2 (fun low high => num_ltb low high = true)
    (tunables (getPerformanceProfile truthy))
    (tunables (getPerformanceProfile falsy)).
Proof.
  intros Ht Hf. rewrite !getPerformanceProfile_level. unfold level_of.
  rewrite Ht, Hf. repeat constructor.
Qed.

Lemma minimal_lowers_every_tunable_witness :
  ToBoolean (JSString "ultra") = true
  /\ ToBoolean JSUndefined = false
  /\ Forall2 (fun low high => num_ltb low high = true)
       (tunables (getPerformanceProfile (JSString "ultra")))
       (tunables (getPerformanceProfile JSUndefined)).
Proof.
  split; [reflexivity|]. split; [reflexivity|].
  apply (minimal_lowers_every_tunable (JSString "ultra") JSUndefined);
    reflexivity.
Defined.

(** * The further models at work on concrete inputs *)

(** A drag with the thumb while a skill button is held: the press tracks
    finger 7, a move far to the right is clamped to the radius, the skill
    finger lifting is ignored, and the thumb lifting resets the joystick. *)
Example joystick_drag :
  let A := VirtualJoystickUI.sample_arithmetic in
  let pressed :=
    VirtualJoystickUI.run A
      [(sample_rect, VirtualJoystickUI.touchstart [thumb 90 350])]
      VirtualJoystickUI.initial in
  let dragged :=
    VirtualJoystickUI.run A
      [(sample_rect, VirtualJoystickUI.touchmove [skill_finger; thumb 170 350]);
       (sample_rect, VirtualJoystickUI.touchend [skill_finger])]
      pressed in
  let released :=
    VirtualJoystickUI.run A
      [(sample_rect, VirtualJoystickUI.touchend [thumb 170 350])] dragged in
  VirtualJoystickUI.getJoystickDirection pressed
  = VirtualJoystickUI.mkDirection (Finite (2 # 5)) (num 0)
  /\ VirtualJoystickUI.getJoystickDirection dragged
     = VirtualJoystickUI.mkDirection (num 1) (num 0)
  /\ VirtualJoystickUI.handleTransform dragged
     = "translate(calc(-50% + 50px), calc(-50% + 0px))"
  /\ VirtualJoystickUI.getJoystickDirection released
     = VirtualJoystickUI.mkDirection (num 0) (num 0)
  /\ VirtualJoystickUI.handleTransform released = "translate(-50%, -50%)"
  /\ VirtualJoystickUI.currentX (VirtualJoystickUI.joystickState released)
     = num 50.
Proof. vm_compute. repeat split; reflexivity. Qed.

Example reset_sample_tab :
  let result :=
    GameplayTab.resetToDefaults GameplayTab.sample_keys ["basic"; "hard"]
      (fun v => v) (fun v => v) sample_tab
      (GameplayTab.mkDisplays (Some "35") (Some "30")) sample_world in
  map_to_list (GameplayTab.localStorage result.2)
  ≡ₚ [("difficulty", "basic"); ("customSkills", "false"); ("cameraZoom", "20");
      ("minimalMode", "false"); ("qualityLevel", "ultra"); ("targetFps", "60");
      ("showPerformanceInfo", "false"); ("debugMode", "false");
      ("logEnabled", "false"); ("volume", "7")]
  /\ GameplayTab.calls result.2 = [GameplayTab.setDifficulty "basic"]
  /\ result.1.2 = ["Reset difficulty to basic"].
Proof.
  split; [|split; reflexivity].
  apply (bool_decide_unpack _). vm_compute. exact I.
Qed.
